(** * exporter-go-mystrom: discovery engine and scrape handler

    A shallow embedding of the two Go source files of the exporter:

    - package [discover] (pkg/discover/discover.go): the UDP listener, the
      table updater, the manifest builder and the address lookup;
    - package [main]: the HTTP handlers [scrapeHandler], [scrapeHandlerByMac]
      and the two process-wide counter vectors.

    Go strings are byte sequences and are modelled by [string]; a [[]byte]
    is a [list byte]; Go's [int] is [Z]; a [map[string]T] is a [gmap string T];
    a [float64] is a primitive binary64 float.
    Package-level variables are gathered in a record that is passed
    explicitly; what the operating system, the network and the clock supply
    is an input of the function that consumes it. *)

From Stdlib Require Import ZArith NArith QArith Lia.
From Stdlib Require Import Strings.String Strings.Ascii Strings.Byte.
From Stdlib Require Import Numbers.DecimalString.
From Stdlib Require Floats.PrimFloat Floats.SpecFloat Floats.FloatOps.
From Stdlib Require Numbers.Cyclic.Int63.Uint63.
From stdpp Require Import base option list sorting strings gmap.

Local Open Scope Z_scope.

(** ** Go runtime and standard-library pieces used by the sources *)

Module golang.

(** A Go slice is either [nil] or a (possibly empty) sequence; the
    difference is observable through [encoding/json]. *)
Inductive slice (A : Type) : Type :=
| SliceNil
| SliceOf (elems : list A).
Arguments SliceNil {A}.
Arguments SliceOf {A} elems.

Definition elems {A} (s : slice A) : list A :=
  match s with SliceNil => [] | SliceOf l => l end.

(** [append(s, x)]: the result is never [nil]. *)
Definition append {A} (s : slice A) (x : A) : slice A :=
  SliceOf (elems s ++ [x]).

(** [s[lo:hi]] on a string; [None] is the run-time panic
    "slice bounds out of range". *)
Definition str_slice (s : string) (lo hi : nat) : option string :=
  if (lo <=? hi)%nat && (hi <=? String.length s)%nat
  then Some (String.substring lo (hi - lo) s)
  else None.

(** [s[i]] on a string; [None] is the run-time panic
    "index out of range". *)
Definition str_index (s : string) (i : nat) : option ascii :=
  String.get i s.

(** [strings.HasPrefix] and [strings.Contains]. *)
Definition HasPrefix (s pre : string) : bool := String.prefix pre s.

Fixpoint Contains (s substr : string) : bool :=
  String.prefix substr s
  || match s with
     | EmptyString => false
     | String _ s' => Contains s' substr
     end.

(** [fmt.Sprintf("%d", n)]. *)
Definition Sprintf_d (n : Z) : string :=
  NilZero.string_of_int (Z.to_int n).

Definition hexDigit : string := "0123456789abcdef".

Definition hexDigit_at (n : N) : ascii :=
  default "0"%char (String.get (N.to_nat n) hexDigit).

Definition hi_nibble (b : byte) : ascii :=
  hexDigit_at (N.shiftr (Byte.to_N b) 4).
Definition lo_nibble (b : byte) : ascii :=
  hexDigit_at (N.land (Byte.to_N b) 15).

Definition str1 (c : ascii) : string := String c EmptyString.

(** [strings.Join]-like helper used by the renderings below. *)
Fixpoint join (sep : string) (l : list string) : string :=
  match l with
  | [] => EmptyString
  | [x] => x
  | x :: rest => x +:+ sep +:+ join sep rest
  end.

(** *** package net *)

Definition HardwareAddr := list byte.

(** [func (a HardwareAddr) String() string]: the loop over the bytes
    with [i] the index and [buf] the output built so far. *)
Fixpoint HardwareAddr_String_loop (i : nat) (a : list byte) (buf : string)
  : string :=
  match a with
  | [] => buf
  | b :: a' =>
      let buf := if (0 <? i)%nat then buf +:+ ":" else buf in
      let buf := buf +:+ str1 (hi_nibble b) in
      let buf := buf +:+ str1 (lo_nibble b) in
      HardwareAddr_String_loop (S i) a' buf
  end.

Definition HardwareAddr_String (a : HardwareAddr) : string :=
  if (length a =? 0)%nat then EmptyString else HardwareAddr_String_loop 0 a EmptyString.

Definition IP := list byte.
Definition IPv4len : nat := 4.
Definition IPv6len : nat := 16.

Definition isZeros (p : list byte) : bool :=
  forallb (fun b => N.eqb (Byte.to_N b) 0) p.

Definition byte_is (p : list byte) (i : nat) (v : N) : bool :=
  match p !! i with
  | Some b => N.eqb (Byte.to_N b) v
  | None => false
  end.

(** [func (ip IP) To4() IP]; the [nil] result is the empty list. *)
Definition To4 (ip : IP) : IP :=
  if (length ip =? IPv4len)%nat then ip
  else if (length ip =? IPv6len)%nat
          && isZeros (take 10 ip)
          && byte_is ip 10 255 && byte_is ip 11 255
       then drop 12 (take 16 ip)
       else [].

Definition ubtoa (b : byte) : string :=
  NilZero.string_of_uint (N.to_uint (Byte.to_N b)).

Definition hexString (b : list byte) : string :=
  String.concat EmptyString (map (fun tn => str1 (hi_nibble tn) +:+ str1 (lo_nibble tn)) b).

Section IPText.
(** The textual form of a 16-byte address that is not an IPv4-mapped
    one (RFC 5952 compression) is left to the [net] package. *)
Variable ipv6_text : IP -> string.

(** [func (ip IP) String() string]. *)
Definition IP_String (ip : IP) : string :=
  if (length ip =? 0)%nat then "<nil>"
  else
    let p4 := To4 ip in
    if (length p4 =? IPv4len)%nat
    then join "." (map ubtoa p4)
    else if negb (length ip =? IPv6len)%nat
         then "?" +:+ hexString ip
         else ipv6_text ip.
End IPText.

Record UDPAddr := mkUDPAddr { udp_IP : IP; udp_Port : Z }.

(** *** package unicode/utf8 *)

Definition in_range (c : ascii) (lo hi : N) : bool :=
  ((lo <=? N_of_ascii c) && (N_of_ascii c <=? hi))%N.

(** [utf8.ValidString]: one-byte sequences below 0x80; two bytes from
    C2..DF; three from E0..EF and four from F0..F4, with the second byte
    narrowed after E0, ED, F0 and F4; continuation bytes in 80..BF. *)
Fixpoint utf8_ValidString (s : string) : bool :=
  match s with
  | EmptyString => true
  | String c0 s1 =>
      let b0 := N_of_ascii c0 in
      if (b0 <? 128)%N then utf8_ValidString s1
      else if in_range c0 194 223 then
        match s1 with
        | String c1 s2 => in_range c1 128 191 && utf8_ValidString s2
        | _ => false
        end
      else if in_range c0 224 239 then
        match s1 with
        | String c1 (String c2 s3) =>
            in_range c1 (if (b0 =? 224)%N then 160 else 128)%N
                        (if (b0 =? 237)%N then 159 else 191)%N
            && in_range c2 128 191 && utf8_ValidString s3
        | _ => false
        end
      else if in_range c0 240 244 then
        match s1 with
        | String c1 (String c2 (String c3 s4)) =>
            in_range c1 (if (b0 =? 240)%N then 144 else 128)%N
                        (if (b0 =? 244)%N then 143 else 191)%N
            && in_range c2 128 191 && in_range c3 128 191
            && utf8_ValidString s4
        | _ => false
        end
      else false
  end.

(** *** float64 and the conversions of the language *)

Definition float64 : Set := PrimFloat.float.

(** [float64(i)] for a [uint64]; from 2^63 on through the halved value with
    its lowest bit kept, which rounds the same way. *)
Definition float64_of_uint64 (i : Z) : float64 :=
  if i <? 2 ^ 63 then PrimFloat.of_uint63 (Uint63.of_Z i)
  else PrimFloat.mul (PrimFloat.of_uint63 (Uint63.of_Z 2))
         (PrimFloat.of_uint63 (Uint63.of_Z (Z.lor (Z.shiftr i 1) (Z.land i 1)))).

(** [float64(i)] for an [int64]. *)
Definition float64_of_int64 (i : Z) : float64 :=
  if i <? 0 then PrimFloat.opp (float64_of_uint64 (- i)) else float64_of_uint64 i.

(** [uint64(v)] for a [float64] that is not negative and below 2^64: the
    fraction is dropped. *)
Definition uint64_of_float64 (v : float64) : Z :=
  match FloatOps.Prim2SF v with
  | SpecFloat.S754_finite false m e =>
      if 0 <=? e then Z.pos m * 2 ^ e else Z.shiftr (Z.pos m) (- e)
  | _ => 0
  end.

(** [func (d Duration) Seconds() float64], [d] in nanoseconds:
    [sec := d / Second; nsec := d % Second;
     return float64(sec) + float64(nsec)/1e9]. *)
Definition Seconds (d : Z) : float64 :=
  PrimFloat.add (float64_of_int64 (Z.quot d 1000000000))
    (PrimFloat.div (float64_of_int64 (Z.rem d 1000000000))
                   (float64_of_int64 1000000000)).

End golang.

(** ** package discover *)

Module discover.
Import golang.

Definition port : string := ":7979".

Record TargetsEntry := mkTargetsEntry {
  Targets : slice string;
  Labels : gmap string string
}.

Record Packet := mkPacket {
  SourceIP : string;
  Port : Z;
  MacAddress : HardwareAddr;
  DeviceType : Z
}.

(** The zero value of [Packet], which indexing a map at a missing key
    yields. *)
Definition zeroPacket : Packet := mkPacket EmptyString 0 [] 0.

(** The package-level variables [LocalAddress] and [discoverlist], and the
    buffered channel that [Initialize] hands to both goroutines (oldest
    message first). *)
Record State := mkState {
  LocalAddress : string;
  discoverlist : gmap string Packet;
  channel : list Packet
}.

Definition channel_cap : nat := 10.

(** What one call of [connection.ReadFromUDP(inputBytes)] delivers: a
    datagram and its origin, or an error (as after [ConnClose]). *)
Inductive ReadResult :=
| ReadOk (datagram : list byte) (udpaddr : UDPAddr)
| ReadErr (err : string).

(** How one iteration of a [for] loop ends. *)
Inductive LoopAction :=
| Continue                  (* [continue]: nothing sent *)
| Send (message : Packet)   (* [receive <- message] *)
| Return                    (* [return] after a read error *)
| Panic.                    (* run-time panic *)

Section WithNetText.
Variable ipv6_text : IP -> string.

(** [Initialize], on the path where resolving and binding the port succeed
    (otherwise [log.Fatalf] ends the process). [outbound] is what
    [getOutboundIP] returns. *)
Definition Initialize (outbound : IP) (localaddr : string) : State :=
  {| LocalAddress :=
       if HasPrefix localaddr ":"
       then IP_String ipv6_text outbound +:+ localaddr
       else localaddr;
     discoverlist := ∅;
     channel := [] |}.

(** The body of the [for] loop of [listen] (lines 112-134), up to the
    channel send. [inputBytes] has 4096 bytes, so [inputBytes[:length]]
    holds at most the first 4096 bytes of the datagram. *)
Definition listen_body (r : ReadResult) : LoopAction :=
  match r with
  | ReadErr _ => Return
  | ReadOk datagram udpaddr =>
      let buffer := string_of_list_byte (take 4096 datagram) in
      if (String.length buffer <? 6)%nat then Continue
      else
        match str_slice buffer 0 6 with
        | None => Panic
        | Some mac =>
            let macString : HardwareAddr := list_byte_of_string mac in
            match str_index buffer 6 with
            | None => Panic
            | Some c =>
                let deviceType := Z.of_N (N_of_ascii c) in
                Send {| SourceIP := IP_String ipv6_text (udp_IP udpaddr);
                        Port := udp_Port udpaddr;
                        MacAddress := macString;
                        DeviceType := deviceType |}
            end
        end
  end.

(** How one iteration of the listener goroutine leaves the package. *)
Inductive ListenOutcome :=
| Listening (s : State)   (* the loop goes round again *)
| Blocked                 (* the channel is full: the send waits *)
| Stopped                 (* the loop returned *)
| Crashed.                (* the goroutine panicked *)

Definition listen (r : ReadResult) (s : State) : ListenOutcome :=
  match listen_body r with
  | Continue => Listening s
  | Send message =>
      if (length (channel s) <? channel_cap)%nat
      then Listening {| LocalAddress := LocalAddress s;
                        discoverlist := discoverlist s;
                        channel := channel s ++ [message] |}
      else Blocked
  | Return => Stopped
  | Panic => Crashed
  end.

End WithNetText.

(** The assignment of line 98: [discoverlist[msg.MacAddress.String()] = msg]. *)
Definition update_body (msg : Packet) (dl : gmap string Packet)
  : gmap string Packet :=
  <[HardwareAddr_String (MacAddress msg) := msg]> dl.

(** One iteration of the loop of [update]; [None] when the channel is empty
    and the receive waits. *)
Definition update (s : State) : option State :=
  match channel s with
  | [] => None
  | msg :: rest =>
      Some {| LocalAddress := LocalAddress s;
              discoverlist := update_body msg (discoverlist s);
              channel := rest |}
  end.

(** [TargetByMacaddr]: the result and the package state after the call. *)
Definition TargetByMacaddr (macaddr : string) (s : State) : string * State :=
  (SourceIP (default zeroPacket (discoverlist s !! macaddr)), s).

(** The entry appended at lines 72-82. *)
Definition Discover_entry (localAddress macaddr : string) (data : Packet)
  : TargetsEntry :=
  {| Targets := SliceOf [localAddress];
     Labels :=
       {[ "instance" := SourceIP data;
          "__metrics_path__" :=
            "/device_by_mac/" +:+ HardwareAddr_String (MacAddress data);
          "__mac_address" := macaddr;
          "__device_type" := Sprintf_d (DeviceType data) ]} |}.

(** The [range] loop of [Discover] (lines 69-83) run over the map entries in
    the order [kvs]; [targetlist] starts as the nil slice. *)
Definition Discover_loop (localAddress : string) (kvs : list (string * Packet))
  : slice TargetsEntry :=
  foldl (fun targetlist kv => append targetlist (Discover_entry localAddress kv.1 kv.2))
        SliceNil kvs.

(** Go leaves the order in which [range] visits a map unspecified: every
    enumeration of the entries is a possible one. *)
Definition range_order (dl : gmap string Packet) (kvs : list (string * Packet))
  : Prop :=
  kvs ≡ₚ map_to_list dl.

(** *** encoding/json on a [TargetsList] *)

Definition dquote : string := str1 (ascii_of_nat 34).

(** A struct field name followed by the colon. *)
Definition json_field (name : string) : string :=
  dquote +:+ name +:+ dquote +:+ ":".

Definition key_le (a b : string * string) : Prop := String.leb a.1 b.1 = true.

#[local] Instance key_le_dec : RelDecision key_le.
Proof. intros a b. unfold key_le. apply _. Defined.

Section WithJSON.
(** How [encoding/json] writes a string value (quotes and escapes); it
    varies with the Go release and no statement below depends on it. *)
Variable json_string : string -> string.

Definition Marshal_strings (l : slice string) : string :=
  match l with
  | SliceNil => "null"
  | SliceOf xs => "[" +:+ join "," (map json_string xs) +:+ "]"
  end.

(** A map is written with its keys sorted. *)
Definition Marshal_labels (m : gmap string string) : string :=
  "{" +:+ join ","
            (map (fun kv => json_string kv.1 +:+ ":" +:+ json_string kv.2)
                 (merge_sort key_le (map_to_list m)))
      +:+ "}".

Definition Marshal_entry (e : TargetsEntry) : string :=
  "{" +:+ json_field "targets" +:+ Marshal_strings (Targets e) +:+ ","
      +:+ json_field "labels" +:+ Marshal_labels (Labels e) +:+ "}".

(** [json.Marshal(targetlist)]: a nil slice is written as [null]. *)
Definition Marshal (targetlist : slice TargetsEntry) : string :=
  match targetlist with
  | SliceNil => "null"
  | SliceOf es => "[" +:+ join "," (map Marshal_entry es) +:+ "]"
  end.

(** [Discover], with [kvs] the order in which [range] visits the table:
    the bytes, the error (always nil for this type) and the package state
    after the call. *)
Definition Discover (kvs : list (string * Packet)) (s : State)
  : (string * option string) * State :=
  ((Marshal (Discover_loop (LocalAddress s) kvs), None), s).

End WithJSON.

(** The two goroutines started by [Initialize], interleaved. *)
Inductive step (ipv6_text : IP -> string) : State -> State -> Prop :=
| step_listen r s s' :
    listen ipv6_text r s = Listening s' -> step ipv6_text s s'
| step_update s s' :
    update s = Some s' -> step ipv6_text s s'.

(** Every key of the table is the text of the address stored under it. *)
Definition keyed_by_address (dl : gmap string Packet) : Prop :=
  forall k p, dl !! k = Some p -> k = HardwareAddr_String (MacAddress p).

(** [n] successive iterations of the loop of [update]; [None] as soon as
    one of them finds the channel empty. *)
Fixpoint update_loop (n : nat) (s : State) : option State :=
  match n with
  | O => Some s
  | S n' =>
      match update s with
      | Some s' => update_loop n' s'
      | None => None
      end
  end.

(** The shape of a record built by [listen]: six address bytes and a type
    read from one byte. *)
Definition decoded (p : Packet) : Prop :=
  length (MacAddress p) = 6%nat /\ 0 <= DeviceType p < 256.

(** What start-up establishes and both goroutines keep: the channel within
    its capacity, and only records of that shape in the channel and in the
    table. *)
Definition sound (s : State) : Prop :=
  (length (channel s) <= channel_cap)%nat
  /\ Forall decoded (channel s)
  /\ map_Forall (fun _ p => decoded p) (discoverlist s).

End discover.

(** ** package main *)

Module main.
Import golang.

Inductive MystromReqStatus :=
| OK
| ErrorSocket
| ErrorTimeout
| ErrorParsingValue.

Definition namespace : string := "mystrom_exporter".

(** What the handlers apply to a counter of a [prometheus.CounterVec]. *)
Inductive CounterOp :=
| OpInc                   (* [Inc()] *)
| OpAddSeconds (d : Z).   (* [Add(d.Seconds())], [d] a duration in nanoseconds *)

(** A [prometheus.CounterVec]: for each tuple of label values the
    operations applied to its counter so far, oldest first; the counter of
    a tuple not yet used has none. *)
Definition ops (lvs : list string) (vec : gmap (list string) (list CounterOp))
  : list CounterOp :=
  default [] (vec !! lvs).

(** [vec.WithLabelValues(lvs...)] panics unless every label value is valid
    UTF-8 (the number of values is the right one at each call site). *)
Definition WithLabelValues_ok (lvs : list string) : bool :=
  forallb utf8_ValidString lvs.

(** [vec.WithLabelValues(lvs...).Inc()] *)
Definition Inc (lvs : list string) (vec : gmap (list string) (list CounterOp))
  : gmap (list string) (list CounterOp) :=
  <[lvs := ops lvs vec ++ [OpInc]]> vec.

(** [vec.WithLabelValues(lvs...).Add(d.Seconds())] *)
Definition Add (lvs : list string) (d : Z)
    (vec : gmap (list string) (list CounterOp))
  : gmap (list string) (list CounterOp) :=
  <[lvs := ops lvs vec ++ [OpAddSeconds d]]> vec.

(** The counter of client_golang: amounts that are whole numbers are summed
    in [valInt], a [uint64], all others in [valBits], a [float64]; a
    negative amount is refused (the handlers never add one). *)
Record counter := mkCounter { valBits : float64; valInt : Z }.

Definition counter_apply (c : counter) (op : CounterOp) : counter :=
  match op with
  | OpInc => {| valBits := valBits c; valInt := (valInt c + 1) mod 2 ^ 64 |}
  | OpAddSeconds d =>
      let v := Seconds d in
      if PrimFloat.ltb v (float64_of_uint64 0) then c
      else
        let ival := uint64_of_float64 v in
        if PrimFloat.eqb (float64_of_uint64 ival) v
        then {| valBits := valBits c; valInt := (valInt c + ival) mod 2 ^ 64 |}
        else {| valBits := PrimFloat.add (valBits c) v; valInt := valInt c |}
  end.

(** The [float64] a counter reports: [valBits + float64(valInt)]. *)
Definition counter_get (log : list CounterOp) : float64 :=
  let c := foldl counter_apply (mkCounter (float64_of_uint64 0) 0) log in
  PrimFloat.add (valBits c) (float64_of_uint64 (valInt c)).

Definition reported (lvs : list string) (vec : gmap (list string) (list CounterOp))
  : float64 :=
  counter_get (ops lvs vec).

(** The exact total of a counter, as a rational number: what the amounts
    applied to it add up to before any rounding to [float64]. [reported]
    is the rounded sum the library holds. *)
Definition exact_amount (op : CounterOp) : Q :=
  match op with
  | OpInc => 1%Q
  | OpAddSeconds d => (d # 1000000000)%Q
  end.

Definition value (lvs : list string) (vec : gmap (list string) (list CounterOp))
  : Q :=
  foldl (fun acc op => (acc + exact_amount op)%Q) 0%Q (ops lvs vec).

(** The process-wide state the handlers touch: the two counter vectors, the
    monotonic clock (nanoseconds) and the targets handed to the Device
    Client so far, latest first. *)
Record World := mkWorld {
  mystromDurationCounterVec : gmap (list string) (list CounterOp);
  mystromRequestsCounterVec : gmap (list string) (list CounterOp);
  clock : Z;
  scrapes : list string
}.

(** [url.Values]: [Get] returns the first value of a key or the empty
    string, [Set] replaces all values of a key. *)
Definition url_Get (q : gmap string (list string)) (key : string) : string :=
  match q !! key with
  | Some (v :: _) => v
  | _ => EmptyString
  end.

Definition url_Set (q : gmap string (list string)) (key value : string)
  : gmap string (list string) :=
  <[key := [value]]> q.

(** The request as the handlers read it: the route variables of
    [mux.Vars(r)] and the parsed query of [r.URL.Query()]. *)
Record Request := mkRequest {
  Vars : gmap string string;
  Query : gmap string (list string)
}.

Definition StatusBadRequest : Z := 400.
Definition StatusInternalServerError : Z := 500.

Section WithDevice.
(** [prometheus.Gatherer], opaque. *)
Variable Gatherer : Type.
(** The [String] method that [stringer] generates for [MystromReqStatus]
    (see the go:generate line); the generated file is not among the
    sources. *)
Variable MystromReqStatus_String : MystromReqStatus -> string.
(** The device behind the Device Client: what the [n]-th fetch, addressed to
    [target], returns (measurements or an error, given by its message) and
    the nanoseconds it takes. *)
Variable device : string -> nat -> (Gatherer + string) * N.

(** What the handler does to its [http.ResponseWriter], or the run-time
    panic that ends it before anything is written. *)
Inductive Response :=
| HttpError (error : string) (code : Z)   (* [http.Error(w, error, code)] *)
| Metrics (gatherer : Gatherer)           (* [promhttp.HandlerFor(gatherer, ..).ServeHTTP] *)
| Panicked.                               (* panic in [WithLabelValues] *)

(** Modelled from the spec: the Device Client of package mystrom, which is
    not among the sources. [mystrom.NewExporter(target).Scrape()] performs
    one request to the target and returns measurements or an error. *)
Definition exporter_Scrape (target : string) (w : World)
  : (Gatherer + string) * World :=
  let '(res, took) := device target (length (scrapes w)) in
  (res,
   {| mystromDurationCounterVec := mystromDurationCounterVec w;
      mystromRequestsCounterVec := mystromRequestsCounterVec w;
      clock := clock w + Z.of_N took;
      scrapes := target :: scrapes w |}).

(** The [if]/[else if]/[else] chain of lines 164-170 selecting the status
    from the text of the error. *)
Definition error_status (err : string) : MystromReqStatus :=
  if Contains err "unable to connect with target" then ErrorSocket
  else if Contains err "i/o timeout" then ErrorTimeout
  else ErrorParsingValue.

Definition scrapeHandler (r : Request) (w : World) : Response * World :=
  let target := url_Get (Query r) "target" in
  if String.eqb target EmptyString
  then (HttpError "'target' parameter must be specified" StatusBadRequest, w)
  else
    let start := clock w in
    let '(res, w) := exporter_Scrape target w in
    let since := clock w - start in
    match res with
    | inr err =>
        let lvs := [target; MystromReqStatus_String (error_status err)] in
        if WithLabelValues_ok lvs
        then
          (HttpError ("failed to scrape target '" +:+ target +:+ "': " +:+ err)
                     StatusInternalServerError,
           {| mystromDurationCounterVec := mystromDurationCounterVec w;
              mystromRequestsCounterVec := Inc lvs (mystromRequestsCounterVec w);
              clock := clock w;
              scrapes := scrapes w |})
        else (Panicked, w)
    | inl gatherer =>
        if WithLabelValues_ok [target]
        then
          let w :=
            {| mystromDurationCounterVec :=
                 Add [target] since (mystromDurationCounterVec w);
               mystromRequestsCounterVec := mystromRequestsCounterVec w;
               clock := clock w;
               scrapes := scrapes w |} in
          let lvs := [target; MystromReqStatus_String OK] in
          if WithLabelValues_ok lvs
          then
            (Metrics gatherer,
             {| mystromDurationCounterVec := mystromDurationCounterVec w;
                mystromRequestsCounterVec := Inc lvs (mystromRequestsCounterVec w);
                clock := clock w;
                scrapes := scrapes w |})
          else (Panicked, w)
        else (Panicked, w)
    end.

Definition scrapeHandlerByMac (r : Request) (d : discover.State) (w : World)
  : Response * discover.State * World :=
  let params := Vars r in
  let '(target, d) :=
    discover.TargetByMacaddr (default EmptyString (params !! "macaddr")) d in
  let rq := Query r in
  let rq := url_Set rq "target" target in
  let r := {| Vars := Vars r; Query := rq |} in
  let '(resp, w) := scrapeHandler r w in
  (resp, d, w).

End WithDevice.

Arguments HttpError {Gatherer} error code.
Arguments Metrics {Gatherer} gatherer.
Arguments Panicked {Gatherer}.

Definition StatusOK : Z := 200.

(** What [discoverHandler] leaves in its [http.ResponseWriter]: the header
    fields it set, the status it wrote and the body. *)
Record Written := mkWritten {
  Header : gmap string string;
  Status : Z;
  Body : string
}.

(** [discoverHandler], with [kvs] the order in which [Discover] ranges over
    the table. *)
Definition discoverHandler (json_string : string -> string)
    (kvs : list (string * discover.Packet)) (d : discover.State)
  : Written * discover.State :=
  let '((data, e), d) := discover.Discover json_string kvs d in
  match e with
  | None =>
      ({| Header := {[ "Content-Type" := "application/json" ]};
          Status := StatusOK;
          Body := data |}, d)
  | Some _ =>
      ({| Header := ∅; Status := StatusInternalServerError; Body := EmptyString |},
       d)
  end.

End main.

(** ** Sample inputs *)

Module sample.
Import golang.

(** A stand-in for the IPv6 text of the [net] package; the sample origins
    are IPv4 addresses. *)
Definition ipv6_text (ip : IP) : string := hexString ip.

(** The discovery packet 01 02 03 04 05 06 02 and its origin 10.0.0.5:1234. *)
Definition datagram : list byte := [x01; x02; x03; x04; x05; x06; x02]%byte.
Definition origin : UDPAddr := mkUDPAddr [x0a; x00; x00; x05]%byte 1234.

(** The same device heard again from 10.0.0.9. *)
Definition origin' : UDPAddr := mkUDPAddr [x0a; x00; x00; x09]%byte 4321.

(** A second device. *)
Definition datagram2 : list byte := [xaa; xbb; xcc; xdd; xee; xff; x6b; x00]%byte.

(** A datagram of exactly six bytes: an address with no type tag. *)
Definition six_bytes : list byte := [x01; x02; x03; x04; x05; x06]%byte.

Definition outbound : IP := [xc0; xa8; x01; x02]%byte.

Definition started : discover.State :=
  discover.Initialize ipv6_text outbound ":9452".

Definition packet : discover.Packet :=
  discover.mkPacket "10.0.0.5" 1234 [x01; x02; x03; x04; x05; x06]%byte 2.
Definition packet' : discover.Packet :=
  discover.mkPacket "10.0.0.9" 4321 [x01; x02; x03; x04; x05; x06]%byte 2.
Definition packet2 : discover.Packet :=
  discover.mkPacket "10.0.0.7" 1234 [xaa; xbb; xcc; xdd; xee; xff]%byte 107.

(** The package state with one, and with two, devices in the table. *)
Definition one_device : discover.State :=
  discover.mkState "192.168.1.2:9452" (discover.update_body packet ∅) [].
Definition two_devices : discover.State :=
  discover.mkState "192.168.1.2:9452"
    (discover.update_body packet2 (discover.update_body packet ∅)) [].

(** The constant names, as [stringer] renders a status. *)
Definition status_name (s : main.MystromReqStatus) : string :=
  match s with
  | main.OK => "OK"
  | main.ErrorSocket => "ErrorSocket"
  | main.ErrorTimeout => "ErrorTimeout"
  | main.ErrorParsingValue => "ErrorParsingValue"
  end.

(** A substitute Device Client: 10.0.0.5 answers in a quarter of a second,
    10.0.0.6 is down, 10.0.0.7 does not answer in time and every other
    target answers with something that is not a status report. *)
Definition device (target : string) (n : nat) : (unit + string) * N :=
  if String.eqb target "10.0.0.5" then (inl tt, 250000000%N)
  else if String.eqb target "10.0.0.6"
       then (inr "unable to connect with target: connection refused", 1200000%N)
  else if String.eqb target "10.0.0.7"
       then (inr "Get http://10.0.0.7/report: i/o timeout", 5000000000%N)
  else (inr "invalid character '<' looking for beginning of value", 30000000%N).

Definition fresh : main.World := main.mkWorld ∅ ∅ 0 [].


(** Quoting of a string that needs no escape. *)
Definition json_string (s : string) : string :=
  discover.dquote +:+ s +:+ discover.dquote.

(** The package state with the same device announced twice in the channel. *)
Definition heard_twice : discover.State :=
  discover.mkState "192.168.1.2:9452" ∅ [packet; packet'].

Definition request (target : string) : main.Request :=
  main.mkRequest ∅ {[ "target" := [target] ]}.

Definition request_by_mac (macaddr : string) : main.Request :=
  main.mkRequest {[ "macaddr" := macaddr ]} ∅.

(** The package state with the channel at its capacity. *)
Definition full : discover.State :=
  discover.mkState "192.168.1.2:9452" ∅ (replicate 10 packet).

(** The package state with two different devices waiting in the channel. *)
Definition two_waiting : discover.State :=
  discover.mkState "192.168.1.2:9452" ∅ [packet; packet2].

(** Two requests by the same hardware address with different queries. *)
Definition by_mac_plain : main.Request :=
  main.mkRequest {[ "macaddr" := "01:02:03:04:05:06" ]} ∅.
Definition by_mac_with_target : main.Request :=
  main.mkRequest {[ "macaddr" := "01:02:03:04:05:06" ]}
                 {[ "target" := ["10.9.9.9"]; "x" := ["y"] ]}.

End sample.

(** * Properties of package discover *)

Section DiscoverProperties.
Import golang discover.

Variable ipv6_text : IP -> string.

(** *** Strings built from byte slices *)

Lemma length_string_of_list_byte (l : list byte) :
  String.length (string_of_list_byte l) = length l.
Proof.
  unfold string_of_list_byte.
  induction l as [|b l IH]; simpl; [reflexivity | now rewrite IH].
Qed.

Lemma substring_string_of_list_byte (n : nat) (l : list byte) :
  String.substring 0 n (string_of_list_byte l) = string_of_list_byte (take n l).
Proof.
  unfold string_of_list_byte.
  revert l; induction n as [|n IH]; intros [|b l]; simpl; try reflexivity.
  now rewrite IH.
Qed.

Lemma get_string_of_list_byte (i : nat) (l : list byte) :
  String.get i (string_of_list_byte l) = ascii_of_byte <$> l !! i.
Proof.
  unfold string_of_list_byte.
  revert i; induction l as [|b l IH]; intros [|i]; simpl; try reflexivity.
  apply IH.
Qed.

Lemma N_of_ascii_of_byte (b : byte) : N_of_ascii (ascii_of_byte b) = Byte.to_N b.
Proof. destruct b; reflexivity. Qed.

(** *** The listener *)

(** A datagram shorter than six bytes is dropped and nothing else happens. *)
Lemma listen_body_short (datagram : list byte) (udpaddr : UDPAddr) :
  (length datagram < 6)%nat ->
  listen_body ipv6_text (ReadOk datagram udpaddr) = Continue.
Proof.
  intros Hlen. unfold listen_body.
  rewrite length_string_of_list_byte, length_take.
  destruct (Nat.ltb_spec (4096 `min` length datagram) 6) as [_|H]; [reflexivity | lia].
Qed.

(** A datagram of seven bytes or more is decoded from its first seven. *)
Lemma listen_body_decodes (datagram : list byte) (udpaddr : UDPAddr) (b6 : byte) :
  datagram !! 6%nat = Some b6 ->
  listen_body ipv6_text (ReadOk datagram udpaddr)
  = Send {| SourceIP := IP_String ipv6_text (udp_IP udpaddr);
            Port := udp_Port udpaddr;
            MacAddress := take 6 datagram;
            DeviceType := Z.of_N (Byte.to_N b6) |}.
Proof.
  intros H6. pose proof (lookup_lt_Some _ _ _ H6) as Hlen.
  unfold listen_body, str_slice, str_index.
  rewrite length_string_of_list_byte, length_take.
  destruct (Nat.ltb_spec (4096 `min` length datagram) 6) as [H|_]; [lia|].
  replace ((0 <=? 6)%nat && (6 <=? 4096 `min` length datagram)%nat) with true
    by (symmetry; apply andb_true_intro; split; apply Nat.leb_le; lia).
  rewrite get_string_of_list_byte, lookup_take_lt by lia.
  rewrite H6. simpl fmap. cbv iota beta.
  change (6 - 0)%nat with 6%nat.
  rewrite substring_string_of_list_byte, list_byte_of_string_of_list_byte.
  rewrite take_take, N_of_ascii_of_byte.
  reflexivity.
Qed.

(** With exactly six bytes the length test lets the datagram through and
    reading [buffer.String()[6]] is out of range. *)
Lemma listen_body_six (datagram : list byte) (udpaddr : UDPAddr) :
  length datagram = 6%nat ->
  listen_body ipv6_text (ReadOk datagram udpaddr) = Panic.
Proof.
  intros Hlen. unfold listen_body, str_slice, str_index.
  rewrite length_string_of_list_byte, length_take, Hlen.
  change ((4096 `min` 6 <? 6)%nat) with false.
  change ((0 <=? 6)%nat && (6 <=? 4096 `min` 6)%nat) with true.
  cbv iota beta.
  rewrite get_string_of_list_byte, lookup_take_lt by lia.
  rewrite (lookup_ge_None_2 datagram 6) by lia.
  reflexivity.
Qed.

Lemma listen_keeps_table (r : ReadResult) (s s' : State) :
  listen ipv6_text r s = Listening s' ->
  discoverlist s' = discoverlist s /\ LocalAddress s' = LocalAddress s.
Proof.
  unfold listen. destruct (listen_body ipv6_text r); try discriminate.
  - intros [= <-]. split; reflexivity.
  - destruct (length (channel s) <? channel_cap)%nat; [|discriminate].
    intros [= <-]. split; reflexivity.
Qed.

(** *** The table *)

Lemma keyed_by_address_empty : keyed_by_address ∅.
Proof. intros k p H. rewrite lookup_empty in H. discriminate. Qed.

Lemma keyed_by_address_update_body (msg : Packet) (dl : gmap string Packet) :
  keyed_by_address dl -> keyed_by_address (update_body msg dl).
Proof.
  intros Hdl k p. unfold update_body.
  destruct (decide (HardwareAddr_String (MacAddress msg) = k)) as [<-|Hne].
  - rewrite lookup_insert_eq. intros [= <-]. reflexivity.
  - rewrite lookup_insert_ne by assumption. apply Hdl.
Qed.

Lemma keyed_by_address_step (s s' : State) :
  step ipv6_text s s' ->
  keyed_by_address (discoverlist s) -> keyed_by_address (discoverlist s').
Proof.
  intros Hstep Hs. inversion Hstep as [r ? ? Hl | ? ? Hu]; subst.
  - apply listen_keeps_table in Hl as [-> _]. exact Hs.
  - unfold update in Hu. destruct (channel s) as [|msg rest]; [discriminate|].
    injection Hu as <-. simpl. now apply keyed_by_address_update_body.
Qed.

Lemma keyed_by_address_reachable (outbound : IP) (localaddr : string) (s : State) :
  rtc (step ipv6_text) (Initialize ipv6_text outbound localaddr) s ->
  keyed_by_address (discoverlist s).
Proof.
  intros Hrun. apply rtc_nsteps in Hrun as [n Hrun]. revert s Hrun.
  induction n as [|n IH]; intros s Hrun.
  - inversion Hrun; subst. apply keyed_by_address_empty.
  - apply nsteps_inv_r in Hrun as (s1 & Hrun & Hlast).
    eapply keyed_by_address_step; [exact Hlast | now apply IH].
Qed.

(** *** The manifest *)

Lemma Discover_loop_from (la : string) (kvs : list (string * Packet))
    (acc : slice TargetsEntry) :
  elems (foldl (fun targetlist kv => append targetlist (Discover_entry la kv.1 kv.2))
               acc kvs)
  = elems acc ++ map (fun kv => Discover_entry la kv.1 kv.2) kvs.
Proof.
  revert acc; induction kvs as [|kv kvs IH]; intros acc; simpl.
  - now rewrite app_nil_r.
  - rewrite IH. unfold append at 1. simpl. now rewrite <- app_assoc.
Qed.

Lemma Discover_loop_elems (la : string) (kvs : list (string * Packet)) :
  elems (Discover_loop la kvs) = map (fun kv => Discover_entry la kv.1 kv.2) kvs.
Proof. unfold Discover_loop. now rewrite Discover_loop_from. Qed.

Lemma Discover_loop_nonempty (la : string) (kv : string * Packet)
    (kvs : list (string * Packet)) :
  Discover_loop la (kv :: kvs)
  = SliceOf (map (fun kv => Discover_entry la kv.1 kv.2) (kv :: kvs)).
Proof.
  pose proof (Discover_loop_elems la (kv :: kvs)) as H.
  unfold Discover_loop in *. simpl foldl in *.
  set (acc := append SliceNil (Discover_entry la kv.1 kv.2)) in *.
  assert (Hne : forall (acc : slice TargetsEntry) l,
             acc <> SliceNil ->
             foldl (fun targetlist kv => append targetlist (Discover_entry la kv.1 kv.2))
                   acc l <> SliceNil).
  { intros a l; revert a; induction l as [|x l IH]; intros a Ha; simpl; [exact Ha|].
    apply IH. discriminate. }
  specialize (Hne acc kvs ltac:(discriminate)).
  destruct (foldl _ acc kvs) as [|es]; [contradiction|].
  simpl in H. now rewrite H.
Qed.

Lemma Discover_entry_labels (la macaddr : string) (data : Packet) :
  Labels (Discover_entry la macaddr data) !! "__mac_address" = Some macaddr
  /\ Labels (Discover_entry la macaddr data) !! "__metrics_path__"
     = Some ("/device_by_mac/" +:+ HardwareAddr_String (MacAddress data))
  /\ Labels (Discover_entry la macaddr data) !! "instance" = Some (SourceIP data)
  /\ Labels (Discover_entry la macaddr data) !! "__device_type"
     = Some (Sprintf_d (DeviceType data)).
Proof. unfold Discover_entry; simpl. repeat split; by simplify_map_eq. Qed.

Lemma range_order_lookup (dl : gmap string Packet) (kvs : list (string * Packet))
    (k : string) (p : Packet) :
  range_order dl kvs -> (k, p) ∈ kvs -> dl !! k = Some p.
Proof.
  unfold range_order. intros Hperm Hin.
  rewrite Hperm in Hin. now apply elem_of_map_to_list in Hin.
Qed.

(** A datagram shorter than six bytes leaves the channel and the table as
    they were, and the loop goes on. *)
Lemma listen_shorter_than_six_discarded (datagram : list byte) (udpaddr : UDPAddr)
    (s : State) :
  (length datagram < 6)%nat ->
  listen ipv6_text (ReadOk datagram udpaddr) s = Listening s.
Proof. intros H. unfold listen. now rewrite listen_body_short. Qed.

(** C1. The specification has every datagram shorter than 7 bytes is dropped
    without error, nothing being queued or written to the table, and that
    byte 6 is only read from datagrams of at least 7 bytes. The guard of the
    loop compares the length with 6, not 7: a datagram of exactly six bytes
    passes it and the read of byte 6 is out of range, so the listener
    goroutine panics instead of going round again. *)
Theorem listen_six_byte_datagram_crashes (datagram : list byte) (udpaddr : UDPAddr)
    (s : State) :
  length datagram = 6%nat ->
  listen_body ipv6_text (ReadOk datagram udpaddr) = Panic
  /\ listen ipv6_text (ReadOk datagram udpaddr) s = Crashed
  /\ listen ipv6_text (ReadOk datagram udpaddr) s <> Listening s.
Proof.
  intros H. unfold listen. rewrite (listen_body_six _ _ H).
  split; [reflexivity|]. split; [reflexivity | discriminate].
Qed.

(** C5. A datagram of at least 7 bytes is decoded into a record holding its
    first six bytes as hardware address, byte 6 as device type and the
    origin's IP text and port; two datagrams that agree on their first seven
    bytes are decoded alike; the record is queued when the channel has room. The packet 01 02 03 04 05 06 02 from
    10.0.0.5:1234, heard right after start-up and taken from the channel by
    the updater, leaves the table with the single key 01:02:03:04:05:06,
    device type 2 and source address 10.0.0.5, and the bytes [Discover]
    then returns are a list of one entry with __device_type "2" and
    instance "10.0.0.5". *)
Theorem listen_decodes_and_table_learns :
  (forall (datagram : list byte) (udpaddr : UDPAddr),
      (7 <= length datagram)%nat ->
      exists b6,
        datagram !! 6%nat = Some b6
        /\ listen_body ipv6_text (ReadOk datagram udpaddr)
           = Send {| SourceIP := IP_String ipv6_text (udp_IP udpaddr);
                     Port := udp_Port udpaddr;
                     MacAddress := take 6 datagram;
                     DeviceType := Z.of_N (Byte.to_N b6) |})
  /\ (forall (datagram datagram' : list byte) (udpaddr : UDPAddr),
         (7 <= length datagram)%nat ->
         take 7 datagram' = take 7 datagram ->
         listen_body ipv6_text (ReadOk datagram' udpaddr)
         = listen_body ipv6_text (ReadOk datagram udpaddr))
  /\ (forall (r : ReadResult) (message : Packet) (s : State),
         listen_body ipv6_text r = Send message ->
         (length (channel s) < channel_cap)%nat ->
         listen ipv6_text r s
         = Listening {| LocalAddress := LocalAddress s;
                        discoverlist := discoverlist s;
                        channel := channel s ++ [message] |})
  /\ (forall (json_string : string -> string) (outbound : IP)
             (localaddr : string),
         exists s1 s2,
           listen ipv6_text (ReadOk sample.datagram sample.origin)
                  (Initialize ipv6_text outbound localaddr) = Listening s1
           /\ update s1 = Some s2
           /\ discoverlist s2 = {[ "01:02:03:04:05:06" := sample.packet ]}
           /\ DeviceType sample.packet = 2
           /\ SourceIP sample.packet = "10.0.0.5"
           /\ forall kvs,
                range_order (discoverlist s2) kvs ->
                (exists e,
                   Discover_loop (LocalAddress s2) kvs = SliceOf [e]
                   /\ Labels e !! "__device_type" = Some "2"
                   /\ Labels e !! "instance" = Some "10.0.0.5")
                /\ Discover json_string kvs s2
                   = (("[" +:+ ("{" +:+ json_field "targets"
                          +:+ ("[" +:+ json_string (LocalAddress s2) +:+ "]")
                          +:+ "," +:+ json_field "labels"
                          +:+ ("{" +:+ join ","
                                 [ json_string "__device_type" +:+ ":"
                                     +:+ json_string "2";
                                   json_string "__mac_address" +:+ ":"
                                     +:+ json_string "01:02:03:04:05:06";
                                   json_string "__metrics_path__" +:+ ":"
                                     +:+ json_string
                                           "/device_by_mac/01:02:03:04:05:06";
                                   json_string "instance" +:+ ":"
                                     +:+ json_string "10.0.0.5" ]
                               +:+ "}")
                          +:+ "}") +:+ "]",
                       None), s2)).
Proof.
  split; [|split; [|split]].
  - intros datagram udpaddr Hlen.
    destruct (lookup_lt_is_Some_2 datagram 6 ltac:(lia)) as [b6 Hb6].
    exists b6. split; [exact Hb6 | now apply listen_body_decodes].
  - intros datagram datagram' udpaddr Hlen Hsame.
    destruct (lookup_lt_is_Some_2 datagram 6 ltac:(lia)) as [b6 Hb6].
    assert (Hb6' : datagram' !! 6%nat = Some b6).
    { rewrite <- (lookup_take_lt datagram' 7 6), Hsame, lookup_take_lt by lia.
      exact Hb6. }
    rewrite (listen_body_decodes _ _ _ Hb6), (listen_body_decodes _ _ _ Hb6').
    replace (take 6 datagram') with (take 6 (take 7 datagram'))
      by (rewrite take_take; reflexivity).
    rewrite Hsame, take_take. reflexivity.
  - intros r message s Hbody Hroom. unfold listen. rewrite Hbody.
    destruct (Nat.ltb_spec (length (channel s)) channel_cap); [reflexivity | lia].
  - intros json_string outbound localaddr.
    set (la := LocalAddress (Initialize ipv6_text outbound localaddr)).
    exists {| LocalAddress := la; discoverlist := ∅; channel := [sample.packet] |}.
    exists {| LocalAddress := la;
              discoverlist := update_body sample.packet ∅;
              channel := [] |}.
    split; [reflexivity|]. split; [reflexivity|].
    assert (Htable : update_body sample.packet ∅
                     = {[ "01:02:03:04:05:06" := sample.packet ]}).
    { unfold update_body. rewrite insert_empty. reflexivity. }
    cbn [discoverlist LocalAddress].
    split; [exact Htable|]. split; [reflexivity|]. split; [reflexivity|].
    intros kvs Horder. rewrite Htable in Horder. unfold range_order in Horder.
    rewrite map_to_list_singleton in Horder.
    apply Permutation_singleton_r in Horder. subst kvs.
    split.
    + eexists. split; [apply Discover_loop_nonempty|].
      destruct (Discover_entry_labels la "01:02:03:04:05:06" sample.packet)
        as (_ & _ & Hinst & Htype).
      split; [exact Htype | exact Hinst].
    + unfold Discover. cbn [LocalAddress]. rewrite Discover_loop_nonempty.
      clearbody la. vm_compute. reflexivity.
Qed.

(** C6. The upsert is last-write-wins per hardware address: after two
    packets with the same hardware address have been taken from the channel,
    the table is what the second one alone would have left, with the second
    record under the address; a table reached from start-up never holds two
    records with the same hardware address; and taking the same packet twice
    leaves what taking it once leaves. *)
Theorem update_last_write_wins :
  (forall (s : State) (p1 p2 : Packet) (rest : list Packet),
      channel s = p1 :: p2 :: rest ->
      MacAddress p1 = MacAddress p2 ->
      exists s1 s2,
        update s = Some s1 /\ update s1 = Some s2
        /\ channel s2 = rest
        /\ discoverlist s2 = update_body p2 (discoverlist s)
        /\ discoverlist s2 !! HardwareAddr_String (MacAddress p1) = Some p2
        /\ forall k, k <> HardwareAddr_String (MacAddress p1) ->
                     discoverlist s2 !! k = discoverlist s !! k)
  /\ (forall (outbound : IP) (localaddr : string) (s : State) k1 k2 r1 r2,
         rtc (step ipv6_text) (Initialize ipv6_text outbound localaddr) s ->
         discoverlist s !! k1 = Some r1 ->
         discoverlist s !! k2 = Some r2 ->
         MacAddress r1 = MacAddress r2 ->
         k1 = k2 /\ r1 = r2)
  /\ (forall (p : Packet) (dl : gmap string Packet),
         update_body p (update_body p dl) = update_body p dl
         /\ size (update_body p (update_body p dl)) = size (update_body p dl)).
Proof.
  split; [|split].
  - intros s p1 p2 rest Hch Hmac.
    unfold update at 1. rewrite Hch.
    eexists. eexists. split; [reflexivity|]. split; [reflexivity|].
    simpl. unfold update_body. rewrite Hmac, insert_insert_eq.
    repeat split.
    + apply lookup_insert_eq.
    + intros k Hk. now rewrite lookup_insert_ne.
  - intros outbound localaddr s k1 k2 r1 r2 Hrun H1 H2 Hmac.
    pose proof (keyed_by_address_reachable _ _ _ Hrun) as Hkeyed.
    pose proof (Hkeyed _ _ H1) as E1. pose proof (Hkeyed _ _ H2) as E2.
    assert (k1 = k2) as <- by congruence.
    split; [reflexivity | congruence].
  - intros p dl. unfold update_body. now rewrite insert_insert_eq.
Qed.

(** C8. For an address that is not a key of the table the lookup returns the
    empty string and leaves the package state as it was; for a key of the
    table it returns the source address of the record stored there, the
    state again untouched. *)
Theorem TargetByMacaddr_lookup (macaddr : string) (s : State) :
  (discoverlist s !! macaddr = None ->
   TargetByMacaddr macaddr s = (EmptyString, s))
  /\ (forall p, discoverlist s !! macaddr = Some p ->
                TargetByMacaddr macaddr s = (SourceIP p, s)).
Proof.
  unfold TargetByMacaddr. split.
  - intros ->. reflexivity.
  - intros p ->. reflexivity.
Qed.

(** C9. Every key of the table is the colon-separated hexadecimal text of
    the hardware address of the record stored under it: this holds at
    start-up, is kept by the updater's assignment and by every step of the
    two goroutines, hence holds in every table reached; and there every
    manifest entry carries as __metrics_path__ the path /device_by_mac/
    followed by the very text of its __mac_address label. *)
Theorem table_keys_are_address_texts :
  keyed_by_address ∅
  /\ (forall (msg : Packet) (dl : gmap string Packet),
         keyed_by_address dl -> keyed_by_address (update_body msg dl))
  /\ (forall s s' : State,
         step ipv6_text s s' ->
         keyed_by_address (discoverlist s) -> keyed_by_address (discoverlist s'))
  /\ (forall (outbound : IP) (localaddr : string) (s : State),
         rtc (step ipv6_text) (Initialize ipv6_text outbound localaddr) s ->
         keyed_by_address (discoverlist s)
         /\ forall kvs e,
              range_order (discoverlist s) kvs ->
              e ∈ elems (Discover_loop (LocalAddress s) kvs) ->
              exists k p,
                discoverlist s !! k = Some p
                /\ k = HardwareAddr_String (MacAddress p)
                /\ Labels e !! "__mac_address" = Some k
                /\ Labels e !! "__metrics_path__" = Some ("/device_by_mac/" +:+ k)).
Proof.
  split; [exact keyed_by_address_empty|].
  split; [exact keyed_by_address_update_body|].
  split; [exact keyed_by_address_step|].
  intros outbound localaddr s Hrun.
  pose proof (keyed_by_address_reachable _ _ _ Hrun) as Hkeyed.
  split; [exact Hkeyed|].
  intros kvs e Horder He. rewrite Discover_loop_elems in He.
  apply list_elem_of_fmap in He as ([k p] & -> & Hin).
  pose proof (range_order_lookup _ _ _ _ Horder Hin) as Hlook.
  pose proof (Hkeyed _ _ Hlook) as Hk.
  exists k, p. cbn [fst snd].
  destruct (Discover_entry_labels (LocalAddress s) k p) as (Hmac & Hpath & _).
  split; [exact Hlook|]. split; [exact Hk|]. split; [exact Hmac|].
  rewrite Hpath. now rewrite <- Hk.
Qed.

Section Manifest.
Variable json_string : string -> string.

(** C2. The specification has an empty table served as an empty JSON array
    and a table of two devices as exactly two entries, each with its table
    key as __mac_address. The second half holds. For the empty table the
    loop never appends, [targetlist] stays the nil slice it was declared as,
    and [json.Marshal] writes a nil slice as null: the bytes returned are
    null, not the array []. *)
Theorem Discover_empty_table_is_null :
  (forall (s : State) (kvs : list (string * Packet)),
      discoverlist s = ∅ ->
      range_order (discoverlist s) kvs ->
      Discover json_string kvs s = (("null", None), s)
      /\ fst (fst (Discover json_string kvs s)) <> "[]")
  /\ (forall (s : State) (kvs : list (string * Packet)),
         size (discoverlist s) = 2%nat ->
         range_order (discoverlist s) kvs ->
         exists k1 p1 k2 p2 e1 e2,
           kvs = [(k1, p1); (k2, p2)]
           /\ k1 <> k2
           /\ discoverlist s !! k1 = Some p1
           /\ discoverlist s !! k2 = Some p2
           /\ Discover_loop (LocalAddress s) kvs = SliceOf [e1; e2]
           /\ Labels e1 !! "__mac_address" = Some k1
           /\ Labels e2 !! "__mac_address" = Some k2).
Proof.
  split.
  - intros s kvs Hempty Horder. unfold range_order in Horder.
    rewrite Hempty, map_to_list_empty in Horder.
    apply Permutation_nil_r in Horder. subst kvs.
    split; [reflexivity | discriminate].
  - intros s kvs Hsize Horder.
    assert (Hlen : length kvs = 2%nat).
    { unfold range_order in Horder. rewrite Horder, length_map_to_list. exact Hsize. }
    destruct kvs as [|[k1 p1] [|[k2 p2] [|? ?]]]; try discriminate.
    assert (Hnodup : NoDup [(k1, p1); (k2, p2)].*1).
    { unfold range_order in Horder. rewrite Horder. apply NoDup_fst_map_to_list. }
    exists k1, p1, k2, p2.
    exists (Discover_entry (LocalAddress s) k1 p1), (Discover_entry (LocalAddress s) k2 p2).
    split; [reflexivity|].
    split. { simpl in Hnodup. apply NoDup_cons_1_1 in Hnodup. set_solver. }
    split. { eapply range_order_lookup; [exact Horder | set_solver]. }
    split. { eapply range_order_lookup; [exact Horder | set_solver]. }
    split; [apply Discover_loop_nonempty|].
    split; apply Discover_entry_labels.
Qed.

End Manifest.

End DiscoverProperties.

(** * Properties of package main *)

Section MainProperties.
Import golang main.

Variable Gatherer : Type.
Variable MystromReqStatus_String : MystromReqStatus -> string.
Variable device : string -> nat -> (Gatherer + string) * N.

#[local] Abbreviation scrapeHandler :=
  (main.scrapeHandler Gatherer MystromReqStatus_String device).
#[local] Abbreviation scrapeHandlerByMac :=
  (main.scrapeHandlerByMac Gatherer MystromReqStatus_String device).

(** The world when the Device Client returns from a fetch of [took]
    nanoseconds. *)
#[local] Abbreviation fetched target took w :=
  {| mystromDurationCounterVec := mystromDurationCounterVec w;
     mystromRequestsCounterVec := mystromRequestsCounterVec w;
     clock := clock w + Z.of_N took;
     scrapes := target :: scrapes w |}.

Lemma scrapeHandler_missing_target (r : Request) (w : World) :
  url_Get (Query r) "target" = EmptyString ->
  scrapeHandler r w
  = (HttpError "'target' parameter must be specified" StatusBadRequest, w).
Proof. intros H. unfold main.scrapeHandler. rewrite H. reflexivity. Qed.

Lemma WithLabelValues_ok_pair (a b : string) :
  WithLabelValues_ok [a; b] = true
  <-> utf8_ValidString a = true /\ utf8_ValidString b = true.
Proof.
  unfold WithLabelValues_ok. cbn [forallb]. rewrite andb_true_r.
  apply andb_true_iff.
Qed.

Lemma WithLabelValues_ok_single (a : string) :
  WithLabelValues_ok [a] = utf8_ValidString a.
Proof. unfold WithLabelValues_ok. cbn [forallb]. apply andb_true_r. Qed.

Lemma scrapeHandler_fetch_error (r : Request) (w : World) (target err : string)
    (took : N) :
  url_Get (Query r) "target" = target ->
  target <> EmptyString ->
  device target (length (scrapes w)) = (inr err, took) ->
  WithLabelValues_ok [target; MystromReqStatus_String (error_status err)] = true ->
  scrapeHandler r w
  = (HttpError ("failed to scrape target '" +:+ target +:+ "': " +:+ err)
               StatusInternalServerError,
     {| mystromDurationCounterVec := mystromDurationCounterVec w;
        mystromRequestsCounterVec :=
          Inc [target; MystromReqStatus_String (error_status err)]
              (mystromRequestsCounterVec w);
        clock := clock w + Z.of_N took;
        scrapes := target :: scrapes w |}).
Proof.
  intros Ht Hne Hdev Hok. unfold main.scrapeHandler, exporter_Scrape.
  rewrite Ht. apply String.eqb_neq in Hne. rewrite Hne, Hdev.
  cbv zeta. rewrite Hok. reflexivity.
Qed.

Lemma scrapeHandler_fetch_error_panics (r : Request) (w : World)
    (target err : string) (took : N) :
  url_Get (Query r) "target" = target ->
  target <> EmptyString ->
  device target (length (scrapes w)) = (inr err, took) ->
  WithLabelValues_ok [target; MystromReqStatus_String (error_status err)] = false ->
  scrapeHandler r w = (Panicked, fetched target took w).
Proof.
  intros Ht Hne Hdev Hok. unfold main.scrapeHandler, exporter_Scrape.
  rewrite Ht. apply String.eqb_neq in Hne. rewrite Hne, Hdev.
  cbv zeta. rewrite Hok. reflexivity.
Qed.

Lemma scrapeHandler_fetch_ok (r : Request) (w : World) (target : string)
    (gatherer : Gatherer) (took : N) :
  url_Get (Query r) "target" = target ->
  target <> EmptyString ->
  device target (length (scrapes w)) = (inl gatherer, took) ->
  WithLabelValues_ok [target] = true ->
  WithLabelValues_ok [target; MystromReqStatus_String OK] = true ->
  scrapeHandler r w
  = (Metrics gatherer,
     {| mystromDurationCounterVec :=
          Add [target] (Z.of_N took) (mystromDurationCounterVec w);
        mystromRequestsCounterVec :=
          Inc [target; MystromReqStatus_String OK] (mystromRequestsCounterVec w);
        clock := clock w + Z.of_N took;
        scrapes := target :: scrapes w |}).
Proof.
  intros Ht Hne Hdev Hok1 Hok2. unfold main.scrapeHandler, exporter_Scrape.
  rewrite Ht. apply String.eqb_neq in Hne. rewrite Hne, Hdev.
  cbv zeta. rewrite Hok1. cbn [clock]. rewrite Hok2.
  replace (clock w + Z.of_N took - clock w) with (Z.of_N took) by lia.
  reflexivity.
Qed.

Lemma scrapeHandler_fetch_ok_panics_early (r : Request) (w : World)
    (target : string) (gatherer : Gatherer) (took : N) :
  url_Get (Query r) "target" = target ->
  target <> EmptyString ->
  device target (length (scrapes w)) = (inl gatherer, took) ->
  WithLabelValues_ok [target] = false ->
  scrapeHandler r w = (Panicked, fetched target took w).
Proof.
  intros Ht Hne Hdev Hok1. unfold main.scrapeHandler, exporter_Scrape.
  rewrite Ht. apply String.eqb_neq in Hne. rewrite Hne, Hdev.
  cbv zeta. rewrite Hok1. reflexivity.
Qed.

Lemma scrapeHandler_fetch_ok_panics_late (r : Request) (w : World)
    (target : string) (gatherer : Gatherer) (took : N) :
  url_Get (Query r) "target" = target ->
  target <> EmptyString ->
  device target (length (scrapes w)) = (inl gatherer, took) ->
  WithLabelValues_ok [target] = true ->
  WithLabelValues_ok [target; MystromReqStatus_String OK] = false ->
  scrapeHandler r w
  = (Panicked,
     {| mystromDurationCounterVec :=
          Add [target] (Z.of_N took) (mystromDurationCounterVec w);
        mystromRequestsCounterVec := mystromRequestsCounterVec w;
        clock := clock w + Z.of_N took;
        scrapes := target :: scrapes w |}).
Proof.
  intros Ht Hne Hdev Hok1 Hok2. unfold main.scrapeHandler, exporter_Scrape.
  rewrite Ht. apply String.eqb_neq in Hne. rewrite Hne, Hdev.
  cbv zeta. rewrite Hok1. cbn [clock]. rewrite Hok2.
  replace (clock w + Z.of_N took - clock w) with (Z.of_N took) by lia.
  reflexivity.
Qed.

(** Whatever follows, a non-empty target is handed to the Device Client
    once. *)
Lemma scrapeHandler_calls_once (r : Request) (w : World) :
  url_Get (Query r) "target" <> EmptyString ->
  scrapes (snd (scrapeHandler r w)) = url_Get (Query r) "target" :: scrapes w.
Proof.
  intros Hne.
  destruct (device (url_Get (Query r) "target") (length (scrapes w)))
    as [[gatherer|err] took] eqn:Hdev.
  - destruct (WithLabelValues_ok [url_Get (Query r) "target"]) eqn:Hok1.
    + destruct (WithLabelValues_ok
                  [url_Get (Query r) "target"; MystromReqStatus_String OK])
        eqn:Hok2.
      * now rewrite (scrapeHandler_fetch_ok r w _ gatherer took eq_refl Hne Hdev
                       Hok1 Hok2).
      * now rewrite (scrapeHandler_fetch_ok_panics_late r w _ gatherer took
                       eq_refl Hne Hdev Hok1 Hok2).
    + now rewrite (scrapeHandler_fetch_ok_panics_early r w _ gatherer took
                     eq_refl Hne Hdev Hok1).
  - destruct (WithLabelValues_ok
                [url_Get (Query r) "target";
                 MystromReqStatus_String (error_status err)]) eqn:Hok.
    + now rewrite (scrapeHandler_fetch_error r w _ err took eq_refl Hne Hdev Hok).
    + now rewrite (scrapeHandler_fetch_error_panics r w _ err took eq_refl Hne
                     Hdev Hok).
Qed.

Lemma ops_insert (lvs : list string) (log : list CounterOp)
    (vec : gmap (list string) (list CounterOp)) :
  ops lvs (<[lvs := log]> vec) = log.
Proof. unfold ops. now rewrite lookup_insert_eq. Qed.

Lemma value_snoc (lvs : list string) (op : CounterOp)
    (vec : gmap (list string) (list CounterOp)) :
  value lvs (<[lvs := ops lvs vec ++ [op]]> vec)
  = (value lvs vec + exact_amount op)%Q.
Proof. unfold value. rewrite ops_insert, foldl_app. reflexivity. Qed.

Lemma value_Inc (lvs : list string) (vec : gmap (list string) (list CounterOp)) :
  value lvs (Inc lvs vec) = (value lvs vec + 1)%Q
  /\ forall lvs', lvs' <> lvs -> Inc lvs vec !! lvs' = vec !! lvs'.
Proof.
  unfold Inc. split.
  - apply value_snoc.
  - intros lvs' Hne. now rewrite lookup_insert_ne.
Qed.

Lemma value_Add (lvs : list string) (d : Z)
    (vec : gmap (list string) (list CounterOp)) :
  value lvs (Add lvs d vec) = (value lvs vec + (d # 1000000000))%Q
  /\ forall lvs', lvs' <> lvs -> Add lvs d vec !! lvs' = vec !! lvs'.
Proof.
  unfold Add. split.
  - apply value_snoc.
  - intros lvs' Hne. now rewrite lookup_insert_ne.
Qed.

Lemma elapsed_nonneg (took : N) : (0 <= Z.of_N took # 1000000000)%Q.
Proof. unfold Qle. cbn [Qnum Qden]. lia. Qed.

Lemma elapsed_is_one (took : N) :
  (Z.of_N took # 1000000000 == 1)%Q <-> took = 1000000000%N.
Proof. unfold Qeq. cbn [Qnum Qden]. lia. Qed.



(** C4. With an empty target the handler answers with the bad request of
    the missing parameter and leaves the world as it was: no fetch, no
    counter, no clock reading. With a non-empty target it hands exactly that
    target to the Device Client, once. *)
Theorem scrapeHandler_target_required (r : Request) (w : World) :
  (url_Get (Query r) "target" = EmptyString ->
   scrapeHandler r w
   = (HttpError "'target' parameter must be specified" StatusBadRequest, w)
   /\ scrapes (snd (scrapeHandler r w)) = scrapes w)
  /\ (url_Get (Query r) "target" <> EmptyString ->
      scrapes (snd (scrapeHandler r w))
      = url_Get (Query r) "target" :: scrapes w
      /\ length (scrapes (snd (scrapeHandler r w))) = S (length (scrapes w))).
Proof.
  split.
  - intros H. rewrite (scrapeHandler_missing_target r w H). split; reflexivity.
  - intros Hne. rewrite (scrapeHandler_calls_once r w Hne). split; reflexivity.
Qed.

(** C7, as amended. For a target that is valid UTF-8 (and status names that
    are), per scrape outcome the request counter of (target, status) has
    one Inc applied, so goes up by exactly one, and no other request counter
    moves, the status being OK on success and the classified kind on
    failure. On success the duration counter of the target has the elapsed
    seconds added, once: its exact total goes up by the elapsed nanoseconds
    over 10^9, which is not negative and is one only when the fetch took
    exactly one second, and no other duration counter moves. On failure the
    duration counters stay as they were. *)
Theorem scrapeHandler_counters (r : Request) (w : World) (target : string)
    (res : Gatherer + string) (took : N) :
  url_Get (Query r) "target" = target ->
  target <> EmptyString ->
  device target (length (scrapes w)) = (res, took) ->
  utf8_ValidString target = true ->
  (forall status, utf8_ValidString (MystromReqStatus_String status) = true) ->
  let w' := snd (scrapeHandler r w) in
  let status := match res with inl _ => OK | inr err => error_status err end in
  let lvs := [target; MystromReqStatus_String status] in
  ops lvs (mystromRequestsCounterVec w')
  = ops lvs (mystromRequestsCounterVec w) ++ [OpInc]
  /\ value lvs (mystromRequestsCounterVec w')
     = (value lvs (mystromRequestsCounterVec w) + 1)%Q
  /\ (forall lvs', lvs' <> lvs ->
        mystromRequestsCounterVec w' !! lvs' = mystromRequestsCounterVec w !! lvs')
  /\ match res with
     | inl gatherer =>
         fst (scrapeHandler r w) = Metrics gatherer
         /\ ops [target] (mystromDurationCounterVec w')
            = ops [target] (mystromDurationCounterVec w)
              ++ [OpAddSeconds (Z.of_N took)]
         /\ value [target] (mystromDurationCounterVec w')
            = (value [target] (mystromDurationCounterVec w)
               + (Z.of_N took # 1000000000))%Q
         /\ (0 <= Z.of_N took # 1000000000)%Q
         /\ ((Z.of_N took # 1000000000 == 1)%Q <-> took = 1000000000%N)
         /\ forall lvs', lvs' <> [target] ->
              mystromDurationCounterVec w' !! lvs'
              = mystromDurationCounterVec w !! lvs'
     | inr err =>
         mystromDurationCounterVec w' = mystromDurationCounterVec w
     end.
Proof.
  intros Ht Hne Hdev Hvt Hvs w' status lvs. subst w'.
  assert (Hok : WithLabelValues_ok lvs = true)
    by (apply WithLabelValues_ok_pair; split; [assumption | apply Hvs]).
  destruct res as [gatherer|err].
  - assert (Hok1 : WithLabelValues_ok [target] = true)
      by now rewrite WithLabelValues_ok_single.
    rewrite (scrapeHandler_fetch_ok r w target gatherer took Ht Hne Hdev Hok1 Hok).
    cbn [fst snd mystromRequestsCounterVec mystromDurationCounterVec].
    destruct (value_Inc lvs (mystromRequestsCounterVec w)) as (Hval & Hframe).
    destruct (value_Add [target] (Z.of_N took) (mystromDurationCounterVec w))
      as (Hdur & Hdframe).
    split; [apply ops_insert|]. split; [exact Hval|]. split; [exact Hframe|].
    split; [reflexivity|]. split; [apply ops_insert|]. split; [exact Hdur|].
    split; [apply elapsed_nonneg|]. split; [apply elapsed_is_one | exact Hdframe].
  - rewrite (scrapeHandler_fetch_error r w target err took Ht Hne Hdev Hok).
    cbn [fst snd mystromRequestsCounterVec mystromDurationCounterVec].
    destruct (value_Inc lvs (mystromRequestsCounterVec w)) as (Hval & Hframe).
    split; [apply ops_insert|]. split; [exact Hval|].
    split; [exact Hframe | reflexivity].
Qed.

(** C10. A request by hardware address whose address is not a key of the
    table gets the empty lookup result installed as its target parameter,
    whatever target the query carried, and is answered with the bad request
    of the missing-target check; the table and the world stay as they
    were. *)
Theorem scrapeHandlerByMac_unknown_address (r : Request) (d : discover.State)
    (w : World) :
  discover.discoverlist d !! default EmptyString (Vars r !! "macaddr") = None ->
  url_Get (url_Set (Query r) "target"
             (fst (discover.TargetByMacaddr
                     (default EmptyString (Vars r !! "macaddr")) d)))
          "target" = EmptyString
  /\ scrapeHandlerByMac r d w
     = (HttpError "'target' parameter must be specified" StatusBadRequest, d, w).
Proof.
  intros Hunknown.
  unfold main.scrapeHandlerByMac, discover.TargetByMacaddr.
  rewrite Hunknown. cbn [default fst discover.SourceIP discover.zeroPacket].
  assert (Hget : url_Get (url_Set (Query r) "target" EmptyString) "target"
                 = EmptyString).
  { unfold url_Get, url_Set. now rewrite lookup_insert_eq. }
  split; [exact Hget|].
  rewrite scrapeHandler_missing_target; [reflexivity | exact Hget].
Qed.

End MainProperties.

(** * The properties on the sample inputs *)

Section Samples.
Import golang discover main.

Lemma sample_reachable :
  rtc (step sample.ipv6_text) sample.started sample.one_device.
Proof.
  eapply rtc_l.
  - apply (step_listen sample.ipv6_text (ReadOk sample.datagram sample.origin)).
    vm_compute. reflexivity.
  - eapply rtc_l; [|apply rtc_refl].
    apply step_update. vm_compute. reflexivity.
Defined.

Lemma listen_six_byte_datagram_crashes_witness :
  length sample.six_bytes = 6%nat
  /\ listen sample.ipv6_text (ReadOk sample.six_bytes sample.origin) sample.started
     = Crashed.
Proof.
  assert (Hlen : length sample.six_bytes = 6%nat) by reflexivity.
  split; [exact Hlen|].
  exact (proj1 (proj2 (listen_six_byte_datagram_crashes sample.ipv6_text
                         sample.six_bytes sample.origin sample.started Hlen))).
Defined.

Lemma listen_decodes_and_table_learns_witness :
  (7 <= length sample.datagram)%nat
  /\ (exists b6,
        sample.datagram !! 6%nat = Some b6
        /\ listen_body sample.ipv6_text (ReadOk sample.datagram sample.origin)
           = Send {| SourceIP := "10.0.0.5";
                     Port := 1234;
                     MacAddress := take 6 sample.datagram;
                     DeviceType := Z.of_N (Byte.to_N b6) |})
  /\ take 7 (sample.datagram ++ sample.datagram2) = take 7 sample.datagram
  /\ listen_body sample.ipv6_text
       (ReadOk (sample.datagram ++ sample.datagram2) sample.origin)
     = listen_body sample.ipv6_text (ReadOk sample.datagram sample.origin)
  /\ listen_body sample.ipv6_text (ReadOk sample.datagram sample.origin)
     = Send sample.packet
  /\ (length (channel sample.started) < channel_cap)%nat
  /\ listen sample.ipv6_text (ReadOk sample.datagram sample.origin) sample.started
     = Listening {| LocalAddress := LocalAddress sample.started;
                    discoverlist := discoverlist sample.started;
                    channel := channel sample.started ++ [sample.packet] |}
  /\ exists s2,
       discoverlist s2 = {[ "01:02:03:04:05:06" := sample.packet ]}
       /\ range_order (discoverlist s2) [("01:02:03:04:05:06", sample.packet)]
       /\ snd (fst (Discover sample.json_string
                      [("01:02:03:04:05:06", sample.packet)] s2)) = None
       /\ fst (fst (Discover sample.json_string
                      [("01:02:03:04:05:06", sample.packet)] s2)) <> "null".
Proof.
  destruct (listen_decodes_and_table_learns sample.ipv6_text)
    as (Hdec & Hrest & Hsend & Hscenario).
  assert (Hlen : (7 <= length sample.datagram)%nat) by (vm_compute; lia).
  assert (Hbody : listen_body sample.ipv6_text (ReadOk sample.datagram sample.origin)
                  = Send sample.packet) by (vm_compute; reflexivity).
  assert (Hroom : (length (channel sample.started) < channel_cap)%nat)
    by (vm_compute; lia).
  split; [exact Hlen|].
  split; [exact (Hdec sample.datagram sample.origin Hlen)|].
  split; [reflexivity|].
  split; [exact (Hrest sample.datagram (sample.datagram ++ sample.datagram2)
                   sample.origin Hlen eq_refl)|].
  split; [exact Hbody|].
  split; [exact Hroom|].
  split; [exact (Hsend _ sample.packet sample.started Hbody Hroom)|].
  destruct (Hscenario sample.json_string sample.outbound ":9452")
    as (s1 & s2 & _ & _ & Htable & _ & _ & Hmanifest).
  exists s2.
  assert (Horder : range_order (discoverlist s2)
                     [("01:02:03:04:05:06", sample.packet)]).
  { unfold range_order. rewrite Htable, map_to_list_singleton. reflexivity. }
  destruct (Hmanifest _ Horder) as [_ Hbytes].
  split; [exact Htable|]. split; [exact Horder|].
  rewrite Hbytes. cbn [fst snd]. split; [reflexivity|].
  intros H. vm_compute in H. discriminate H.
Defined.

Lemma update_last_write_wins_witness :
  channel sample.heard_twice = [sample.packet; sample.packet']
  /\ MacAddress sample.packet = MacAddress sample.packet'
  /\ (exists s1 s2,
        update sample.heard_twice = Some s1 /\ update s1 = Some s2
        /\ channel s2 = []
        /\ discoverlist s2 = update_body sample.packet' (discoverlist sample.heard_twice)
        /\ discoverlist s2 !! HardwareAddr_String (MacAddress sample.packet)
           = Some sample.packet'
        /\ forall k, k <> HardwareAddr_String (MacAddress sample.packet) ->
                     discoverlist s2 !! k = discoverlist sample.heard_twice !! k)
  /\ rtc (step sample.ipv6_text) sample.started sample.one_device
  /\ discoverlist sample.one_device !! "01:02:03:04:05:06" = Some sample.packet
  /\ ("01:02:03:04:05:06" = "01:02:03:04:05:06" /\ sample.packet = sample.packet).
Proof.
  destruct (update_last_write_wins sample.ipv6_text) as (Htwo & Hone & _).
  assert (Hch : channel sample.heard_twice = [sample.packet; sample.packet'])
    by reflexivity.
  assert (Hmac : MacAddress sample.packet = MacAddress sample.packet')
    by reflexivity.
  assert (Hlook : discoverlist sample.one_device !! "01:02:03:04:05:06"
                  = Some sample.packet) by (vm_compute; reflexivity).
  split; [exact Hch|]. split; [exact Hmac|].
  split; [exact (Htwo sample.heard_twice sample.packet sample.packet' [] Hch Hmac)|].
  split; [exact sample_reachable|]. split; [exact Hlook|].
  exact (Hone sample.outbound ":9452" sample.one_device _ _ _ _
              sample_reachable Hlook Hlook eq_refl).
Defined.

Lemma TargetByMacaddr_lookup_witness :
  discoverlist sample.one_device !! "0a:0b:0c:0d:0e:0f" = None
  /\ TargetByMacaddr "0a:0b:0c:0d:0e:0f" sample.one_device
     = (EmptyString, sample.one_device)
  /\ discoverlist sample.one_device !! "01:02:03:04:05:06" = Some sample.packet
  /\ TargetByMacaddr "01:02:03:04:05:06" sample.one_device
     = ("10.0.0.5", sample.one_device).
Proof.
  assert (Hnone : discoverlist sample.one_device !! "0a:0b:0c:0d:0e:0f" = None)
    by (vm_compute; reflexivity).
  assert (Hsome : discoverlist sample.one_device !! "01:02:03:04:05:06"
                  = Some sample.packet) by (vm_compute; reflexivity).
  split; [exact Hnone|].
  split; [exact (proj1 (TargetByMacaddr_lookup _ sample.one_device) Hnone)|].
  split; [exact Hsome|].
  exact (proj2 (TargetByMacaddr_lookup _ sample.one_device) sample.packet Hsome).
Defined.

Lemma table_keys_are_address_texts_witness :
  keyed_by_address ∅
  /\ keyed_by_address (update_body sample.packet ∅)
  /\ rtc (step sample.ipv6_text) sample.started sample.one_device
  /\ keyed_by_address (discoverlist sample.one_device)
  /\ range_order (discoverlist sample.one_device)
                 (map_to_list (discoverlist sample.one_device))
  /\ forall e,
       e ∈ elems (Discover_loop (LocalAddress sample.one_device)
                    (map_to_list (discoverlist sample.one_device))) ->
       exists k p,
         discoverlist sample.one_device !! k = Some p
         /\ k = HardwareAddr_String (MacAddress p)
         /\ Labels e !! "__mac_address" = Some k
         /\ Labels e !! "__metrics_path__" = Some ("/device_by_mac/" +:+ k).
Proof.
  destruct (table_keys_are_address_texts sample.ipv6_text)
    as (Hempty & Hupd & _ & Hreach).
  destruct (Hreach sample.outbound ":9452" sample.one_device sample_reachable)
    as (Hkeyed & Hentries).
  assert (Horder : range_order (discoverlist sample.one_device)
                     (map_to_list (discoverlist sample.one_device)))
    by (unfold range_order; reflexivity).
  split; [exact Hempty|].
  split; [exact (Hupd sample.packet ∅ Hempty)|].
  split; [exact sample_reachable|].
  split; [exact Hkeyed|].
  split; [exact Horder|].
  intros e He. exact (Hentries _ e Horder He).
Defined.

Lemma Discover_empty_table_is_null_witness :
  discoverlist sample.started = ∅
  /\ range_order (discoverlist sample.started) []
  /\ Discover sample.json_string [] sample.started = (("null", None), sample.started)
  /\ size (discoverlist sample.two_devices) = 2%nat
  /\ range_order (discoverlist sample.two_devices)
                 (map_to_list (discoverlist sample.two_devices))
  /\ exists k1 p1 k2 p2 e1 e2,
       map_to_list (discoverlist sample.two_devices) = [(k1, p1); (k2, p2)]
       /\ k1 <> k2
       /\ discoverlist sample.two_devices !! k1 = Some p1
       /\ discoverlist sample.two_devices !! k2 = Some p2
       /\ Discover_loop (LocalAddress sample.two_devices)
            (map_to_list (discoverlist sample.two_devices)) = SliceOf [e1; e2]
       /\ Labels e1 !! "__mac_address" = Some k1
       /\ Labels e2 !! "__mac_address" = Some k2.
Proof.
  destruct (Discover_empty_table_is_null sample.json_string) as (Hnull & Htwo).
  assert (Hempty : discoverlist sample.started = ∅) by reflexivity.
  assert (Horder0 : range_order (discoverlist sample.started) []).
  { unfold range_order. rewrite Hempty, map_to_list_empty. reflexivity. }
  assert (Hsize : size (discoverlist sample.two_devices) = 2%nat)
    by (vm_compute; reflexivity).
  assert (Horder2 : range_order (discoverlist sample.two_devices)
                      (map_to_list (discoverlist sample.two_devices)))
    by (unfold range_order; reflexivity).
  split; [exact Hempty|]. split; [exact Horder0|].
  split; [exact (proj1 (Hnull sample.started [] Hempty Horder0))|].
  split; [exact Hsize|]. split; [exact Horder2|].
  exact (Htwo sample.two_devices _ Hsize Horder2).
Defined.

#[local] Abbreviation sample_scrapeHandler :=
  (main.scrapeHandler unit sample.status_name sample.device).



Lemma scrapeHandler_target_required_witness :
  url_Get (Query (sample.request EmptyString)) "target" = EmptyString
  /\ sample_scrapeHandler (sample.request EmptyString) sample.fresh
     = (HttpError "'target' parameter must be specified" 400, sample.fresh)
  /\ url_Get (Query (sample.request "10.0.0.5")) "target" <> EmptyString
  /\ scrapes (snd (sample_scrapeHandler (sample.request "10.0.0.5") sample.fresh))
     = url_Get (Query (sample.request "10.0.0.5")) "target" :: scrapes sample.fresh.
Proof.
  assert (Hempty : url_Get (Query (sample.request EmptyString)) "target"
                   = EmptyString) by (vm_compute; reflexivity).
  assert (Hne : url_Get (Query (sample.request "10.0.0.5")) "target" <> EmptyString)
    by (vm_compute; discriminate).
  split; [exact Hempty|].
  split; [exact (proj1 (proj1 (scrapeHandler_target_required unit sample.status_name
                                 sample.device _ sample.fresh) Hempty))|].
  split; [exact Hne|].
  exact (proj1 (proj2 (scrapeHandler_target_required unit sample.status_name
                         sample.device _ sample.fresh) Hne)).
Defined.

Lemma scrapeHandler_counters_witness :
  url_Get (Query (sample.request "10.0.0.5")) "target" = "10.0.0.5"
  /\ "10.0.0.5" <> EmptyString
  /\ sample.device "10.0.0.5" (length (scrapes sample.fresh))
     = (inl tt, 250000000%N)
  /\ utf8_ValidString "10.0.0.5" = true
  /\ (forall status, utf8_ValidString (sample.status_name status) = true)
  /\ value ["10.0.0.5"; "OK"]
       (mystromRequestsCounterVec
          (snd (sample_scrapeHandler (sample.request "10.0.0.5") sample.fresh)))
     = (value ["10.0.0.5"; "OK"] (mystromRequestsCounterVec sample.fresh) + 1)%Q
  /\ ops ["10.0.0.5"]
       (mystromDurationCounterVec
          (snd (sample_scrapeHandler (sample.request "10.0.0.5") sample.fresh)))
     = ops ["10.0.0.5"] (mystromDurationCounterVec sample.fresh)
       ++ [OpAddSeconds 250000000].
Proof.
  assert (Ht : url_Get (Query (sample.request "10.0.0.5")) "target" = "10.0.0.5")
    by (vm_compute; reflexivity).
  assert (Hne : "10.0.0.5" <> EmptyString) by discriminate.
  assert (Hdev : sample.device "10.0.0.5" (length (scrapes sample.fresh))
                 = (inl tt, 250000000%N)) by reflexivity.
  assert (Hvt : utf8_ValidString "10.0.0.5" = true) by reflexivity.
  assert (Hvs : forall status, utf8_ValidString (sample.status_name status) = true)
    by (intros []; reflexivity).
  destruct (scrapeHandler_counters unit sample.status_name sample.device
              _ _ _ _ _ Ht Hne Hdev Hvt Hvs) as (_ & Hreq & _ & _ & Hdur & _).
  split; [exact Ht|]. split; [exact Hne|]. split; [exact Hdev|].
  split; [exact Hvt|]. split; [exact Hvs|].
  split; [exact Hreq | exact Hdur].
Defined.

(** C7, as stated: the duration counter does not go up by one per outcome.
    A successful scrape of 10.0.0.5 that takes a quarter of a second applies
    one Add of 0.25 to the duration counter of that target: the float64 it
    reports goes from 0 to 0.25, not to 1, and its exact total is 1/4. *)
Lemma duration_counter_not_incremented_by_one :
  fst (sample_scrapeHandler (sample.request "10.0.0.5") sample.fresh) = Metrics tt
  /\ ops ["10.0.0.5"]
       (mystromDurationCounterVec
          (snd (sample_scrapeHandler (sample.request "10.0.0.5") sample.fresh)))
     = [OpAddSeconds 250000000]
  /\ PrimFloat.eqb
       (reported ["10.0.0.5"]
          (mystromDurationCounterVec
             (snd (sample_scrapeHandler (sample.request "10.0.0.5") sample.fresh))))
       (PrimFloat.div (float64_of_uint64 1) (float64_of_uint64 4))
     = true
  /\ PrimFloat.eqb
       (reported ["10.0.0.5"]
          (mystromDurationCounterVec
             (snd (sample_scrapeHandler (sample.request "10.0.0.5") sample.fresh))))
       (PrimFloat.add
          (reported ["10.0.0.5"] (mystromDurationCounterVec sample.fresh))
          (float64_of_uint64 1))
     = false
  /\ (value ["10.0.0.5"]
        (mystromDurationCounterVec
           (snd (sample_scrapeHandler (sample.request "10.0.0.5") sample.fresh)))
      == 1 # 4)%Q
  /\ ~ (value ["10.0.0.5"]
          (mystromDurationCounterVec
             (snd (sample_scrapeHandler (sample.request "10.0.0.5") sample.fresh)))
        == value ["10.0.0.5"] (mystromDurationCounterVec sample.fresh) + 1)%Q.
Proof.
  split; [vm_compute; reflexivity|].
  split; [vm_compute; reflexivity|].
  split; [vm_compute; reflexivity|].
  split; [vm_compute; reflexivity|].
  split; [vm_compute; reflexivity|].
  vm_compute. discriminate.
Qed.

(** The float64 a counter reports is the rounded sum, not the exact total:
    after fetches of 0.1 s and 0.2 s it is 0.30000000000000004, which
    differs from the float64 of 0.3 s, while the exact total is 3/10. *)
Example reported_sum_is_rounded :
  PrimFloat.eqb
    (counter_get [OpAddSeconds 100000000; OpAddSeconds 200000000])
    (PrimFloat.add (Seconds 100000000) (Seconds 200000000)) = true
  /\ PrimFloat.eqb
       (counter_get [OpAddSeconds 100000000; OpAddSeconds 200000000])
       (Seconds 300000000) = false
  /\ PrimFloat.ltb (Seconds 300000000)
       (counter_get [OpAddSeconds 100000000; OpAddSeconds 200000000]) = true.
Proof. repeat split; vm_compute; reflexivity. Qed.

Lemma scrapeHandlerByMac_unknown_address_witness :
  discoverlist sample.one_device
    !! default EmptyString (Vars (sample.request_by_mac "0a:0b:0c:0d:0e:0f") !! "macaddr")
  = None
  /\ main.scrapeHandlerByMac unit sample.status_name sample.device
       (sample.request_by_mac "0a:0b:0c:0d:0e:0f") sample.one_device sample.fresh
     = (HttpError "'target' parameter must be specified" 400,
        sample.one_device, sample.fresh).
Proof.
  assert (Hunknown :
            discoverlist sample.one_device
              !! default EmptyString
                   (Vars (sample.request_by_mac "0a:0b:0c:0d:0e:0f") !! "macaddr")
            = None) by (vm_compute; reflexivity).
  split; [exact Hunknown|].
  exact (proj2 (scrapeHandlerByMac_unknown_address unit sample.status_name
                  sample.device _ sample.one_device sample.fresh Hunknown)).
Defined.

End Samples.

(** * Further properties of package discover *)

Section DiscoverMore.
Import golang discover.

Variable ipv6_text : IP -> string.

(** *** Texts *)

Lemma string_app_cons (x : ascii) (a b : string) :
  String x a +:+ b = String x (a +:+ b).
Proof. reflexivity. Qed.

Lemma string_app_assoc (a b c : string) : (a +:+ b) +:+ c = a +:+ (b +:+ c).
Proof.
  induction a as [|x a IH]; [reflexivity|].
  rewrite !string_app_cons. now rewrite IH.
Qed.

Lemma string_app_nil_r (a : string) : a +:+ EmptyString = a.
Proof.
  induction a as [|x a IH]; [reflexivity|].
  rewrite string_app_cons. now rewrite IH.
Qed.

Lemma string_app_length (a b : string) :
  String.length (a +:+ b) = (String.length a + String.length b)%nat.
Proof.
  induction a as [|x a IH]; [reflexivity|].
  rewrite string_app_cons. cbn [String.length]. now rewrite IH.
Qed.

(** Past the first byte the loop of [HardwareAddr.String] only appends. *)
Lemma HardwareAddr_String_loop_acc (i : nat) (a : list byte) (buf : string) :
  HardwareAddr_String_loop (S i) a buf
  = buf +:+ HardwareAddr_String_loop 1 a EmptyString.
Proof.
  revert i buf; induction a as [|b a IH]; intros i buf.
  - simpl. now rewrite string_app_nil_r.
  - cbn [HardwareAddr_String_loop]. change (0 <? S i)%nat with true.
    change (0 <? 1)%nat with true. cbv iota.
    rewrite (IH (S i)), (IH 1%nat).
    rewrite !string_app_assoc. reflexivity.
Qed.

Lemma HardwareAddr_String_tail_cons (b : byte) (a : list byte) :
  HardwareAddr_String_loop 1 (b :: a) EmptyString
  = String ":" (String (hi_nibble b) (String (lo_nibble b)
      (HardwareAddr_String_loop 1 a EmptyString))).
Proof.
  cbn [HardwareAddr_String_loop]. change (0 <? 1)%nat with true. cbv iota.
  rewrite HardwareAddr_String_loop_acc. reflexivity.
Qed.

Lemma HardwareAddr_String_cons (b : byte) (a : list byte) :
  HardwareAddr_String (b :: a)
  = String (hi_nibble b) (String (lo_nibble b)
      (HardwareAddr_String_loop 1 a EmptyString)).
Proof.
  unfold HardwareAddr_String. cbn [length Nat.eqb HardwareAddr_String_loop].
  change (0 <? 0)%nat with false. cbv iota.
  rewrite HardwareAddr_String_loop_acc. reflexivity.
Qed.

(** The two hexadecimal digits determine the byte. *)
Lemma nibbles_inj (b b' : byte) :
  hi_nibble b = hi_nibble b' -> lo_nibble b = lo_nibble b' -> b = b'.
Proof.
  set (g := fun c : ascii =>
              N.of_nat (default 0%nat (String.index 0 (str1 c) hexDigit))).
  assert (H : forall x : byte,
             Byte.of_N (16 * g (hi_nibble x) + g (lo_nibble x)) = Some x)
    by (intros []; vm_compute; reflexivity).
  intros Hhi Hlo. pose proof (H b) as Hb. rewrite Hhi, Hlo, (H b') in Hb.
  now injection Hb.
Qed.

Lemma HardwareAddr_String_tail_inj (a a' : list byte) :
  HardwareAddr_String_loop 1 a EmptyString
  = HardwareAddr_String_loop 1 a' EmptyString ->
  a = a'.
Proof.
  revert a'; induction a as [|b a IH]; intros [|b' a'];
    rewrite ?HardwareAddr_String_tail_cons; try (simpl; discriminate).
  - reflexivity.
  - intros [= Hhi Hlo Hrest].
    f_equal; [now apply nibbles_inj | now apply IH].
Qed.

(** Different hardware addresses have different texts. *)
Lemma HardwareAddr_String_inj (a a' : HardwareAddr) :
  HardwareAddr_String a = HardwareAddr_String a' -> a = a'.
Proof.
  destruct a as [|b a], a' as [|b' a'];
    rewrite ?HardwareAddr_String_cons; try (cbn; discriminate).
  - reflexivity.
  - intros [= Hhi Hlo Hrest].
    f_equal; [now apply nibbles_inj | now apply HardwareAddr_String_tail_inj].
Qed.

Lemma HardwareAddr_String_tail_length (a : list byte) :
  String.length (HardwareAddr_String_loop 1 a EmptyString) = (3 * length a)%nat.
Proof.
  induction a as [|b a IH]; [reflexivity|].
  rewrite HardwareAddr_String_tail_cons. cbn [String.length length]. lia.
Qed.

Lemma HardwareAddr_String_length (a : HardwareAddr) :
  String.length (HardwareAddr_String a) = (3 * length a - 1)%nat.
Proof.
  destruct a as [|b a]; [reflexivity|].
  rewrite HardwareAddr_String_cons. cbn [String.length length].
  rewrite HardwareAddr_String_tail_length. lia.
Qed.

(** *** The listener, case by case *)

Lemma listen_body_Send_inv (r : ReadResult) (m : Packet) :
  listen_body ipv6_text r = Send m ->
  exists datagram udpaddr b6,
    r = ReadOk datagram udpaddr
    /\ datagram !! 6%nat = Some b6
    /\ m = {| SourceIP := IP_String ipv6_text (udp_IP udpaddr);
              Port := udp_Port udpaddr;
              MacAddress := take 6 datagram;
              DeviceType := Z.of_N (Byte.to_N b6) |}.
Proof.
  destruct r as [datagram udpaddr|err]; [|discriminate].
  destruct (datagram !! 6%nat) as [b6|] eqn:H6.
  - rewrite (listen_body_decodes ipv6_text _ _ _ H6). intros [= <-].
    exists datagram, udpaddr, b6. repeat split; assumption.
  - apply lookup_ge_None in H6.
    destruct (decide (length datagram = 6%nat)) as [Heq|Hne].
    + now rewrite (listen_body_six ipv6_text _ _ Heq).
    + assert (Hlt : (length datagram < 6)%nat) by lia.
      now rewrite (listen_body_short ipv6_text _ _ Hlt).
Qed.

Lemma listen_body_Send_decoded (r : ReadResult) (m : Packet) :
  listen_body ipv6_text r = Send m -> decoded m.
Proof.
  intros H. apply listen_body_Send_inv in H as (d & u & b6 & _ & H6 & ->).
  pose proof (lookup_lt_Some _ _ _ H6) as Hlen.
  pose proof (Byte.to_N_bounded b6) as Hb.
  split; cbn [MacAddress DeviceType]; [rewrite length_take; lia | lia].
Qed.

Lemma listen_Listening_inv (r : ReadResult) (s s' : State) :
  listen ipv6_text r s = Listening s' ->
  s' = s
  \/ exists m,
       listen_body ipv6_text r = Send m
       /\ (length (channel s) < channel_cap)%nat
       /\ s' = {| LocalAddress := LocalAddress s;
                  discoverlist := discoverlist s;
                  channel := channel s ++ [m] |}.
Proof.
  unfold listen. destruct (listen_body ipv6_text r) as [|m| |]; try discriminate.
  - intros [= <-]. now left.
  - destruct (Nat.ltb_spec (length (channel s)) channel_cap); [|discriminate].
    intros [= <-]. right. exists m. repeat split; assumption.
Qed.

(** *** What start-up establishes and every step keeps *)

Lemma sound_step (s s' : State) : step ipv6_text s s' -> sound s -> sound s'.
Proof.
  intros Hstep (Hcap & Hch & Htab).
  inversion Hstep as [r ? ? Hl | ? ? Hu]; subst.
  - apply listen_Listening_inv in Hl as [-> | (m & Hm & Hroom & ->)].
    + split; [|split]; assumption.
    + apply listen_body_Send_decoded in Hm.
      split; [|split]; cbn [channel discoverlist].
      * rewrite length_app. simpl. lia.
      * apply Forall_app; split; [assumption | now constructor].
      * assumption.
  - unfold update in Hu. destruct (channel s) as [|msg rest] eqn:Ech; [discriminate|].
    injection Hu as <-. apply Forall_cons in Hch as [Hmsg Hrest].
    split; [|split]; cbn [channel discoverlist].
    + simpl in Hcap. lia.
    + assumption.
    + unfold update_body. now apply map_Forall_insert_2.
Qed.

Lemma sound_reachable (outbound : IP) (localaddr : string) (s : State) :
  rtc (step ipv6_text) (Initialize ipv6_text outbound localaddr) s -> sound s.
Proof.
  revert s. apply rtc_ind_r.
  - split; [|split]; cbn.
    + unfold channel_cap. lia.
    + constructor.
    + apply map_Forall_empty.
  - intros s1 s2 _ Hstep IH. eapply sound_step; eassumption.
Qed.

Lemma step_keeps (s s' : State) :
  step ipv6_text s s' ->
  LocalAddress s' = LocalAddress s
  /\ (forall k, is_Some (discoverlist s !! k) -> is_Some (discoverlist s' !! k))
  /\ (size (discoverlist s) <= size (discoverlist s') <= S (size (discoverlist s)))%nat.
Proof.
  intros Hstep. inversion Hstep as [r ? ? Hl | ? ? Hu]; subst.
  - apply (listen_keeps_table ipv6_text) in Hl as [-> ->].
    split; [reflexivity|]. split; [tauto | lia].
  - unfold update in Hu. destruct (channel s) as [|msg rest]; [discriminate|].
    injection Hu as <-. cbn [LocalAddress discoverlist]. unfold update_body.
    split; [reflexivity|]. split.
    + intros k Hk.
      destruct (decide (HardwareAddr_String (MacAddress msg) = k)) as [<-|Hne].
      * rewrite lookup_insert_eq. eauto.
      * now rewrite lookup_insert_ne.
    + destruct (discoverlist s !! HardwareAddr_String (MacAddress msg)) eqn:E.
      * rewrite map_size_insert_Some by (rewrite E; eauto). lia.
      * rewrite map_size_insert_None by exact E. lia.
Qed.

(** *** The updater run over a whole channel *)

Lemma update_loop_channel (la : string) (ch : list Packet) (dl : gmap string Packet) :
  update_loop (length ch) (mkState la dl ch)
  = Some (mkState la (foldl (fun dl msg => update_body msg dl) dl ch) []).
Proof.
  revert dl; induction ch as [|msg ch IH]; intros dl; [reflexivity|].
  cbn [length update_loop update channel LocalAddress discoverlist foldl].
  apply IH.
Qed.

Lemma foldl_update_body_keeps (p : Packet) (post : list Packet)
    (dl : gmap string Packet) :
  Forall (fun q => MacAddress q <> MacAddress p) post ->
  dl !! HardwareAddr_String (MacAddress p) = Some p ->
  foldl (fun dl msg => update_body msg dl) dl post
    !! HardwareAddr_String (MacAddress p) = Some p.
Proof.
  revert dl; induction post as [|q post IH]; intros dl Hpost Hdl; [exact Hdl|].
  apply Forall_cons in Hpost as [Hq Hpost]. cbn [foldl].
  apply IH; [exact Hpost|]. unfold update_body.
  rewrite lookup_insert_ne; [exact Hdl|].
  intros Heq. apply HardwareAddr_String_inj in Heq. contradiction.
Qed.

Lemma listen_body_ReadOk_cases (datagram : list byte) (udpaddr : UDPAddr) :
  ((length datagram < 6)%nat
   /\ listen_body ipv6_text (ReadOk datagram udpaddr) = Continue)
  \/ (length datagram = 6%nat
      /\ listen_body ipv6_text (ReadOk datagram udpaddr) = Panic)
  \/ ((7 <= length datagram)%nat
      /\ exists m, listen_body ipv6_text (ReadOk datagram udpaddr) = Send m).
Proof.
  destruct (datagram !! 6%nat) as [b6|] eqn:H6.
  - right; right. split; [apply lookup_lt_Some in H6; lia|].
    eexists. exact (listen_body_decodes ipv6_text _ _ _ H6).
  - apply lookup_ge_None in H6.
    destruct (decide (length datagram = 6%nat)) as [Heq|Hne].
    + right; left. split; [exact Heq | now apply listen_body_six].
    + left. assert (Hlt : (length datagram < 6)%nat) by lia.
      split; [exact Hlt | now apply listen_body_short].
Qed.

(** X1. One iteration of the listener never writes to the table or to
    LocalAddress and never removes or reorders a queued message: if the loop
    goes round again, the channel is either as it was or longer by one
    decoded record at its end. A datagram of at least 7 bytes that finds the
    channel at its capacity of ten makes the send wait; it is neither
    dropped nor queued, and the send waits in no other case. *)
Theorem listen_appends_or_waits (r : ReadResult) (s : State) :
  (forall s',
      listen ipv6_text r s = Listening s' ->
      LocalAddress s' = LocalAddress s
      /\ discoverlist s' = discoverlist s
      /\ (channel s' = channel s
          \/ exists m, channel s' = channel s ++ [m]
                       /\ decoded m
                       /\ (length (channel s) < channel_cap)%nat))
  /\ (forall datagram udpaddr,
         r = ReadOk datagram udpaddr ->
         (7 <= length datagram)%nat ->
         (channel_cap <= length (channel s))%nat ->
         listen ipv6_text r s = Blocked)
  /\ (listen ipv6_text r s = Blocked ->
      (channel_cap <= length (channel s))%nat
      /\ exists datagram udpaddr,
           r = ReadOk datagram udpaddr /\ (7 <= length datagram)%nat).
Proof.
  split; [|split].
  - intros s' Hl.
    apply listen_Listening_inv in Hl as [-> | (m & Hm & Hroom & ->)].
    + split; [reflexivity|]. split; [reflexivity|]. now left.
    + split; [reflexivity|]. split; [reflexivity|]. right.
      exists m. split; [reflexivity|].
      split; [eapply listen_body_Send_decoded; eassumption | exact Hroom].
  - intros datagram udpaddr -> Hlen Hfull.
    destruct (listen_body_ReadOk_cases datagram udpaddr)
      as [[Hlt _] | [[Heq _] | [_ [m Hm]]]]; try lia.
    unfold listen. rewrite Hm.
    destruct (Nat.ltb_spec (length (channel s)) channel_cap); [lia | reflexivity].
  - unfold listen. intros Hl.
    destruct (listen_body ipv6_text r) as [|m| |] eqn:Hbody; try discriminate.
    destruct (Nat.ltb_spec (length (channel s)) channel_cap); [discriminate|].
    split; [assumption|].
    apply listen_body_Send_inv in Hbody as (d & u & b6 & -> & H6 & _).
    exists d, u. split; [reflexivity|]. apply lookup_lt_Some in H6. lia.
Qed.

(** X2. From start-up on, whatever the two goroutines do and in whatever
    order, the channel never holds more than ten messages, and every message
    waiting in it is a decoded record: six address bytes and a device type
    between 0 and 255. *)
Theorem channel_within_capacity (outbound : IP) (localaddr : string) (s : State) :
  rtc (step ipv6_text) (Initialize ipv6_text outbound localaddr) s ->
  (length (channel s) <= 10)%nat
  /\ forall p, p ∈ channel s ->
                length (MacAddress p) = 6%nat /\ 0 <= DeviceType p < 256.
Proof.
  intros Hrun.
  destruct (sound_reachable _ _ _ Hrun) as (Hcap & Hch & _).
  split; [exact Hcap|].
  intros p Hp. rewrite Forall_forall in Hch. exact (Hch p Hp).
Qed.

(** X3. In every table reached from start-up each record has a hardware
    address of exactly six bytes and a device type between 0 and 255, and is
    stored under a key of exactly 17 characters; so a lookup with a text of
    any other length finds no device and returns the empty string. *)
Theorem stored_records_are_decoded (outbound : IP) (localaddr : string) (s : State) :
  rtc (step ipv6_text) (Initialize ipv6_text outbound localaddr) s ->
  (forall k p,
      discoverlist s !! k = Some p ->
      length (MacAddress p) = 6%nat
      /\ 0 <= DeviceType p < 256
      /\ String.length k = 17%nat)
  /\ (forall macaddr,
         String.length macaddr <> 17%nat ->
         TargetByMacaddr macaddr s = (EmptyString, s)).
Proof.
  intros Hrun.
  pose proof (sound_reachable _ _ _ Hrun) as (_ & _ & Htab).
  pose proof (keyed_by_address_reachable ipv6_text _ _ _ Hrun) as Hkeyed.
  assert (Hrec : forall k p,
             discoverlist s !! k = Some p ->
             length (MacAddress p) = 6%nat
             /\ 0 <= DeviceType p < 256
             /\ String.length k = 17%nat).
  { intros k p Hkp. destruct (Htab k p Hkp) as [Hmac Htype].
    split; [exact Hmac|]. split; [exact Htype|].
    rewrite (Hkeyed k p Hkp), HardwareAddr_String_length, Hmac. reflexivity. }
  split; [exact Hrec|].
  intros macaddr Hlen. unfold TargetByMacaddr.
  destruct (discoverlist s !! macaddr) as [p|] eqn:E; [|reflexivity].
  destruct (Hrec _ _ E) as (_ & _ & H17). contradiction.
Qed.

(** X4. The table only grows: along any run of the two goroutines
    LocalAddress stays what it was, every key once present stays present,
    and the number of records never goes down. *)
Theorem table_only_grows (s s' : State) :
  rtc (step ipv6_text) s s' ->
  LocalAddress s' = LocalAddress s
  /\ (forall k, is_Some (discoverlist s !! k) -> is_Some (discoverlist s' !! k))
  /\ (size (discoverlist s) <= size (discoverlist s'))%nat.
Proof.
  revert s'. apply rtc_ind_r.
  - split; [reflexivity|]. split; [tauto | lia].
  - intros s1 s2 _ Hstep (Hla & Hkeys & Hsize).
    destruct (step_keeps _ _ Hstep) as (Hla' & Hkeys' & Hsize').
    split; [congruence|]. split; [intros k Hk; apply Hkeys', Hkeys, Hk | lia].
Qed.

(** X5. Records of different hardware addresses never overwrite each other:
    after both have been stored, each is found under its own address, in
    whichever order they arrived. *)
Theorem update_distinct_addresses_coexist (p1 p2 : Packet) (dl : gmap string Packet) :
  MacAddress p1 <> MacAddress p2 ->
  update_body p2 (update_body p1 dl) !! HardwareAddr_String (MacAddress p1) = Some p1
  /\ update_body p2 (update_body p1 dl) !! HardwareAddr_String (MacAddress p2) = Some p2
  /\ update_body p2 (update_body p1 dl) = update_body p1 (update_body p2 dl).
Proof.
  intros Hne.
  assert (Hkeys : HardwareAddr_String (MacAddress p1)
                  <> HardwareAddr_String (MacAddress p2)).
  { intros Heq. apply HardwareAddr_String_inj in Heq. contradiction. }
  unfold update_body. split; [|split].
  - rewrite lookup_insert_ne by congruence. apply lookup_insert_eq.
  - apply lookup_insert_eq.
  - now apply insert_insert_ne.
Qed.

(** X6. Run for as many iterations as the channel holds messages, the
    updater empties the channel, applies the messages oldest first and then
    waits on the next receive. For each hardware address the record found
    afterwards is the one of its last message in the channel. *)
Theorem update_loop_drains_channel (s : State) :
  update_loop (length (channel s)) s
  = Some {| LocalAddress := LocalAddress s;
            discoverlist :=
              foldl (fun dl msg => update_body msg dl) (discoverlist s) (channel s);
            channel := [] |}
  /\ update_loop (S (length (channel s))) s = None
  /\ (forall pre p post,
         channel s = pre ++ p :: post ->
         Forall (fun q => MacAddress q <> MacAddress p) post ->
         exists s',
           update_loop (length (channel s)) s = Some s'
           /\ discoverlist s' !! HardwareAddr_String (MacAddress p) = Some p
           /\ TargetByMacaddr (HardwareAddr_String (MacAddress p)) s'
              = (SourceIP p, s')).
Proof.
  destruct s as [la dl ch]. cbn [channel LocalAddress discoverlist].
  assert (Hall := update_loop_channel la ch dl).
  split; [exact Hall|]. split.
  - clear Hall. revert dl; induction ch as [|msg ch IH]; intros dl; [reflexivity|].
    cbn [length]. change (update_loop (S (S (length ch))) (mkState la dl (msg :: ch)))
      with (update_loop (S (length ch)) (mkState la (update_body msg dl) ch)).
    apply IH.
  - intros pre p post -> Hpost. eexists. split; [exact Hall|].
    assert (Hfound :
              foldl (fun dl msg => update_body msg dl) dl (pre ++ p :: post)
                !! HardwareAddr_String (MacAddress p) = Some p).
    { rewrite foldl_app. cbn [foldl].
      apply foldl_update_body_keeps; [exact Hpost|].
      unfold update_body. apply lookup_insert_eq. }
    split; [exact Hfound|].
    unfold TargetByMacaddr. cbn [discoverlist]. now rewrite Hfound.
Qed.

(** X7. A device that has been heard is found: when a datagram of at least
    7 bytes arrives at an empty channel and the updater takes it, the lookup
    of the text of its first six bytes returns the IP text of its origin,
    and every other key of the table is as before. *)
Theorem heard_device_is_found (datagram : list byte) (udpaddr : UDPAddr) (s : State) :
  (7 <= length datagram)%nat ->
  channel s = [] ->
  exists s1 s2,
    listen ipv6_text (ReadOk datagram udpaddr) s = Listening s1
    /\ update s1 = Some s2
    /\ channel s2 = []
    /\ TargetByMacaddr (HardwareAddr_String (take 6 datagram)) s2
       = (IP_String ipv6_text (udp_IP udpaddr), s2)
    /\ forall k, k <> HardwareAddr_String (take 6 datagram) ->
                 discoverlist s2 !! k = discoverlist s !! k.
Proof.
  intros Hlen Hch.
  destruct (lookup_lt_is_Some_2 datagram 6 ltac:(lia)) as [b6 H6].
  unfold listen. rewrite (listen_body_decodes ipv6_text _ _ _ H6), Hch.
  change (length [] <? channel_cap)%nat with true. cbv iota.
  eexists. eexists. split; [reflexivity|]. split; [reflexivity|].
  cbn [channel discoverlist app]. split; [reflexivity|].
  unfold TargetByMacaddr, update_body. cbn [discoverlist MacAddress].
  split.
  - now rewrite lookup_insert_eq.
  - intros k Hk. now rewrite lookup_insert_ne.
Qed.

Lemma run_keeps_LocalAddress (s s' : State) :
  rtc (step ipv6_text) s s' -> LocalAddress s' = LocalAddress s.
Proof.
  revert s'. apply rtc_ind_r; [reflexivity|].
  intros s1 s2 _ Hstep IH.
  destruct (step_keeps _ _ Hstep) as (Hla & _). congruence.
Qed.

(** *** The manifest in general *)

(** X8. For every table and every order in which [range] may visit it, the
    manifest loop yields exactly one entry per record and none twice; each
    entry has the exporter's own address as its only target and exactly the
    four labels instance, __metrics_path__, __mac_address and __device_type,
    holding the record's source address, the by-address scrape path, the
    record's key and the device type in decimal. *)
Theorem Discover_one_entry_per_record (s : State) (kvs : list (string * Packet)) :
  range_order (discoverlist s) kvs ->
  length (elems (Discover_loop (LocalAddress s) kvs)) = size (discoverlist s)
  /\ (fun e => Labels e !! "__mac_address") <$> elems (Discover_loop (LocalAddress s) kvs)
     = (fun kv => Some kv.1) <$> kvs
  /\ NoDup kvs.*1
  /\ (forall k, k ∈ kvs.*1 <-> is_Some (discoverlist s !! k))
  /\ forall e,
       e ∈ elems (Discover_loop (LocalAddress s) kvs) ->
       Targets e = SliceOf [LocalAddress s]
       /\ dom (Labels e)
          = ({[ "instance"; "__metrics_path__"; "__mac_address"; "__device_type" ]}
             : gset string)
       /\ exists k p,
            discoverlist s !! k = Some p
            /\ Labels e !! "__mac_address" = Some k
            /\ Labels e !! "instance" = Some (SourceIP p)
            /\ Labels e !! "__device_type" = Some (Sprintf_d (DeviceType p))
            /\ Labels e !! "__metrics_path__"
               = Some ("/device_by_mac/" +:+ HardwareAddr_String (MacAddress p)).
Proof.
  intros Horder. rewrite Discover_loop_elems.
  split. { rewrite length_map. unfold range_order in Horder.
           now rewrite Horder, length_map_to_list. }
  split. { rewrite <- list_fmap_compose. apply list_fmap_ext.
           intros i [k p] _.
           exact (proj1 (Discover_entry_labels (LocalAddress s) k p)). }
  split. { unfold range_order in Horder. rewrite Horder.
           apply NoDup_fst_map_to_list. }
  split. { intros k. unfold range_order in Horder. rewrite Horder.
           rewrite list_elem_of_fmap. split.
           - intros ([k' p] & -> & Hin). apply elem_of_map_to_list in Hin. eauto.
           - intros [p Hp]. exists (k, p). split; [reflexivity|].
             now apply elem_of_map_to_list. }
  intros e He. apply list_elem_of_fmap in He as ([k p] & -> & Hin).
  cbn [fst snd].
  split; [reflexivity|]. split.
  - unfold Discover_entry; cbn [Labels].
    rewrite !dom_insert_L, dom_singleton_L. set_solver.
  - exists k, p.
    destruct (Discover_entry_labels (LocalAddress s) k p) as (Hm & Hp & Hi & Ht).
    split; [eapply range_order_lookup; eassumption|].
    repeat split; assumption.
Qed.

(** X19. The one target of every manifest entry, at any time after
    start-up, is the address fixed by [Initialize]: the listen address as
    given, or, when it starts with a colon, the text of the outbound IP
    followed by it. *)
Theorem manifest_target_is_startup_address (outbound : IP) (localaddr : string)
    (s : State) (kvs : list (string * Packet)) (e : TargetsEntry) :
  rtc (step ipv6_text) (Initialize ipv6_text outbound localaddr) s ->
  range_order (discoverlist s) kvs ->
  e ∈ elems (Discover_loop (LocalAddress s) kvs) ->
  ((exists rest, localaddr = ":" +:+ rest) ->
   Targets e = SliceOf [IP_String ipv6_text outbound +:+ localaddr])
  /\ (~ (exists rest, localaddr = ":" +:+ rest) ->
      Targets e = SliceOf [localaddr]).
Proof.
  intros Hrun Horder He.
  rewrite Discover_loop_elems in He.
  apply list_elem_of_fmap in He as ([k p] & -> & _).
  unfold Discover_entry. cbn [Targets].
  rewrite (run_keeps_LocalAddress _ _ Hrun).
  unfold Initialize, HasPrefix. cbn [LocalAddress].
  assert (Hpre : String.prefix ":" localaddr = true
                 <-> exists rest, localaddr = ":" +:+ rest).
  { destruct localaddr as [|c rest]; cbn [String.prefix].
    - split; [discriminate | intros [x H]; discriminate H].
    - destruct (ascii_dec ":" c) as [<-|Hne].
      + destruct rest; (split; [intros _; eexists; reflexivity | reflexivity]).
      + split; [discriminate|]. intros [x H]. injection H as Hc _. congruence. }
  destruct (String.prefix ":" localaddr).
  - split; [reflexivity|]. intros Hno. exfalso. apply Hno, Hpre. reflexivity.
  - split; [|reflexivity]. intros Hyes. apply Hpre in Hyes. discriminate.
Qed.

Section ManifestMore.
Variable json_string : string -> string.

Lemma Marshal_null_iff (s : State) (kvs : list (string * Packet)) :
  range_order (discoverlist s) kvs ->
  Marshal json_string (Discover_loop (LocalAddress s) kvs) = "null"
  <-> discoverlist s = ∅.
Proof.
  intros Horder.
  assert (Hnil : kvs = [] <-> discoverlist s = ∅).
  { unfold range_order in Horder. split.
    - intros ->. apply Permutation_nil_l in Horder.
      now apply map_to_list_empty_iff.
    - intros Hempty. rewrite Hempty, map_to_list_empty in Horder.
      now apply Permutation_nil_r in Horder. }
  split.
  - destruct kvs as [|kv kvs]; [intros _; now apply Hnil|].
    rewrite Discover_loop_nonempty. unfold Marshal.
    rewrite string_app_cons. discriminate.
  - intros Hempty. apply Hnil in Hempty. subst kvs. reflexivity.
Qed.

(** X9. The bytes [Discover] returns are null exactly when the table is
    empty; with at least one record they are a bracketed list. The call
    reports no error and leaves the package state as it was, and two orders
    of visiting the same table give the same entries up to their order. *)
Theorem Discover_null_iff_empty_table (s : State) (kvs : list (string * Packet)) :
  range_order (discoverlist s) kvs ->
  (fst (fst (Discover json_string kvs s)) = "null" <-> discoverlist s = ∅)
  /\ (discoverlist s <> ∅ ->
      exists body, fst (fst (Discover json_string kvs s)) = "[" +:+ body +:+ "]")
  /\ snd (fst (Discover json_string kvs s)) = None
  /\ snd (Discover json_string kvs s) = s
  /\ forall kvs',
       range_order (discoverlist s) kvs' ->
       elems (Discover_loop (LocalAddress s) kvs')
       ≡ₚ elems (Discover_loop (LocalAddress s) kvs).
Proof.
  intros Horder.
  assert (Hnil : kvs = [] <-> discoverlist s = ∅).
  { unfold range_order in Horder. split.
    - intros ->. apply Permutation_nil_l in Horder.
      now apply map_to_list_empty_iff.
    - intros Hempty. rewrite Hempty, map_to_list_empty in Horder.
      now apply Permutation_nil_r in Horder. }
  unfold Discover. cbn [fst snd].
  split; [|split; [|split; [|split]]]; try reflexivity.
  - now apply Marshal_null_iff.
  - intros Hne. destruct kvs as [|kv kvs]; [exfalso; now apply Hne, Hnil|].
    rewrite Discover_loop_nonempty. unfold Marshal. eauto.
  - intros kvs' Horder'. rewrite !Discover_loop_elems.
    apply fmap_Permutation. unfold range_order in *. now rewrite Horder, Horder'.
Qed.

(** X10. The text written for one manifest entry: an object with the
    member targets, a one-element list holding the exporter's address, and
    the member labels, an object whose four members come in the order of
    their keys: __device_type, __mac_address, __metrics_path__, instance. *)
Theorem Marshal_entry_shape (localAddress macaddr : string) (data : Packet) :
  Marshal_entry json_string (Discover_entry localAddress macaddr data)
  = "{" +:+ json_field "targets"
        +:+ ("[" +:+ json_string localAddress +:+ "]") +:+ ","
        +:+ json_field "labels"
        +:+ ("{" +:+ join ","
               [ json_string "__device_type" +:+ ":"
                   +:+ json_string (Sprintf_d (DeviceType data));
                 json_string "__mac_address" +:+ ":" +:+ json_string macaddr;
                 json_string "__metrics_path__" +:+ ":"
                   +:+ json_string ("/device_by_mac/"
                                    +:+ HardwareAddr_String (MacAddress data));
                 json_string "instance" +:+ ":" +:+ json_string (SourceIP data) ]
             +:+ "}")
        +:+ "}".
Proof.
  unfold Marshal_entry, Discover_entry, Marshal_strings, Marshal_labels.
  cbn [Targets Labels].
  generalize (Sprintf_d (DeviceType data)).
  generalize ("/device_by_mac/" +:+ HardwareAddr_String (MacAddress data)).
  generalize (SourceIP data).
  intros a b c. vm_compute. reflexivity.
Qed.

End ManifestMore.

End DiscoverMore.

(** * Further properties of package main *)

Section MainMore.
Import golang main.

Variable Gatherer : Type.
Variable MystromReqStatus_String : MystromReqStatus -> string.
Variable device : string -> nat -> (Gatherer + string) * N.
Variable ipv6_text : IP -> string.
Variable json_string : string -> string.

#[local] Abbreviation scrapeHandler :=
  (main.scrapeHandler Gatherer MystromReqStatus_String device).
#[local] Abbreviation scrapeHandlerByMac :=
  (main.scrapeHandlerByMac Gatherer MystromReqStatus_String device).

(** *** [strings.Contains] finds occurrences *)

Lemma prefix_occurs (sub s : string) :
  String.prefix sub s = true <-> exists post, s = sub +:+ post.
Proof.
  revert s; induction sub as [|a sub IH]; intros s.
  - split; [intros _; exists s; reflexivity | intros _; destruct s; reflexivity].
  - destruct s as [|b s]; cbn [String.prefix].
    + split; [discriminate | intros [post H]; discriminate H].
    + destruct (ascii_dec a b) as [->|Hne].
      * rewrite IH. split; intros [post H]; exists post.
        -- now rewrite H.
        -- now injection H.
      * split; [discriminate|]. intros [post H]. injection H as Hab _.
        congruence.
Qed.

Lemma Contains_occurs (s sub : string) :
  Contains s sub = true <-> exists pre post, s = pre +:+ sub +:+ post.
Proof.
  induction s as [|c s IH]; cbn [Contains].
  - rewrite orb_false_r, prefix_occurs. split.
    + intros [post H]. exists EmptyString, post. exact H.
    + intros ([|x pre] & post & H); [exists post; exact H | discriminate H].
  - rewrite orb_true_iff, prefix_occurs, IH. split.
    + intros [[post H] | (pre & post & H)].
      * exists EmptyString, post. exact H.
      * exists (String c pre), post. now rewrite H.
    + intros ([|x pre] & post & H).
      * left. exists post. exact H.
      * right. exists pre, post. now injection H.
Qed.

Lemma Qle_plus_nonneg (q v : Q) : (0 <= v)%Q -> (q <= q + v)%Q.
Proof.
  intros Hv. rewrite <- (Qplus_0_r q) at 1.
  apply Qplus_le_compat; [apply Qle_refl | exact Hv].
Qed.

Lemma value_frame (lvs' : list string)
    (vec vec' : gmap (list string) (list CounterOp)) :
  vec' !! lvs' = vec !! lvs' -> value lvs' vec' = value lvs' vec.
Proof. unfold value, ops. now intros ->. Qed.

Lemma Inc_never_decreases (lvs lvs' : list string)
    (vec : gmap (list string) (list CounterOp)) :
  (value lvs' vec <= value lvs' (Inc lvs vec))%Q.
Proof.
  destruct (value_Inc lvs vec) as [Hval Hframe].
  destruct (decide (lvs' = lvs)) as [->|Hne].
  - rewrite Hval. now apply Qle_plus_nonneg.
  - rewrite (value_frame _ _ _ (Hframe lvs' Hne)). apply Qle_refl.
Qed.

Lemma Add_never_decreases (lvs lvs' : list string) (took : N)
    (vec : gmap (list string) (list CounterOp)) :
  (value lvs' vec <= value lvs' (Add lvs (Z.of_N took) vec))%Q.
Proof.
  destruct (value_Add lvs (Z.of_N took) vec) as [Hval Hframe].
  destruct (decide (lvs' = lvs)) as [->|Hne].
  - rewrite Hval. apply Qle_plus_nonneg, elapsed_nonneg.
  - rewrite (value_frame _ _ _ (Hframe lvs' Hne)). apply Qle_refl.
Qed.

Lemma scrapeHandler_reads_target (r r' : Request) (w : World) :
  url_Get (Query r) "target" = url_Get (Query r') "target" ->
  scrapeHandler r w = scrapeHandler r' w.
Proof. intros H. unfold main.scrapeHandler. now rewrite H. Qed.

Lemma url_Get_Set (q : gmap string (list string)) (key value : string) :
  url_Get (url_Set q key value) key = value.
Proof. unfold url_Get, url_Set. now rewrite lookup_insert_eq. Qed.

(** X11. The discovery handler always answers 200 with the content type
    application/json and, as body, the bytes of the manifest; the body is
    null exactly when no device is in the table; the table is left as it
    was. *)
Theorem discoverHandler_serves_manifest (kvs : list (string * discover.Packet))
    (d : discover.State) :
  discover.range_order (discover.discoverlist d) kvs ->
  Status (fst (discoverHandler json_string kvs d)) = 200
  /\ Header (fst (discoverHandler json_string kvs d)) !! "Content-Type"
     = Some "application/json"
  /\ Body (fst (discoverHandler json_string kvs d))
     = discover.Marshal json_string
         (discover.Discover_loop (discover.LocalAddress d) kvs)
  /\ (Body (fst (discoverHandler json_string kvs d)) = "null"
      <-> discover.discoverlist d = ∅)
  /\ snd (discoverHandler json_string kvs d) = d.
Proof.
  intros Horder.
  pose proof (Marshal_null_iff json_string d kvs Horder) as Hnull.
  unfold discoverHandler, discover.Discover. cbn [fst snd Status Header Body].
  split; [reflexivity|]. split; [by simplify_map_eq|]. split; [reflexivity|].
  split; [exact Hnull | reflexivity].
Qed.

(** X12. A request by hardware address is answered from the macaddr route
    variable alone: two requests with the same variable get the same
    response and leave the same world, whatever their query strings hold,
    a target parameter included. *)
Theorem scrapeHandlerByMac_ignores_query (r1 r2 : Request) (d : discover.State)
    (w : World) :
  Vars r1 !! "macaddr" = Vars r2 !! "macaddr" ->
  scrapeHandlerByMac r1 d w = scrapeHandlerByMac r2 d w.
Proof.
  intros Hvar. unfold main.scrapeHandlerByMac, discover.TargetByMacaddr.
  rewrite Hvar.
  set (target := discover.SourceIP _).
  rewrite (scrapeHandler_reads_target
             {| Vars := Vars r1; Query := url_Set (Query r1) "target" target |}
             {| Vars := Vars r2; Query := url_Set (Query r2) "target" target |} w).
  - reflexivity.
  - cbn [Query]. now rewrite !url_Get_Set.
Qed.

(** X13. A request by the hardware address of a stored record whose source
    address is not empty is served as a scrape of that source address: the
    Device Client is called once, with the stored source address, the
    response and the counters are those of a plain scrape request for it,
    and the table is left as it was. *)
Theorem scrapeHandlerByMac_known_device (r : Request) (d : discover.State)
    (w : World) (macaddr : string) (p : discover.Packet) :
  Vars r !! "macaddr" = Some macaddr ->
  discover.discoverlist d !! macaddr = Some p ->
  discover.SourceIP p <> EmptyString ->
  scrapeHandlerByMac r d w
  = (fst (scrapeHandler
            {| Vars := ∅; Query := {[ "target" := [discover.SourceIP p] ]} |} w),
     d,
     snd (scrapeHandler
            {| Vars := ∅; Query := {[ "target" := [discover.SourceIP p] ]} |} w))
  /\ scrapes (snd (scrapeHandlerByMac r d w)) = discover.SourceIP p :: scrapes w.
Proof.
  intros Hvar Hrec Hne.
  unfold main.scrapeHandlerByMac, discover.TargetByMacaddr.
  rewrite Hvar. change (default EmptyString (Some macaddr)) with macaddr.
  rewrite Hrec. change (default discover.zeroPacket (Some p)) with p.
  set (r' := {| Vars := Vars r;
                Query := url_Set (Query r) "target" (discover.SourceIP p) |}).
  set (r0 := {| Vars := ∅; Query := {[ "target" := [discover.SourceIP p] ]} |}).
  assert (Hget : url_Get (Query r') "target" = discover.SourceIP p)
    by apply url_Get_Set.
  assert (Hsame : scrapeHandler r' w = scrapeHandler r0 w).
  { apply scrapeHandler_reads_target. rewrite Hget.
    unfold r0, url_Get. cbn [Query]. now rewrite lookup_singleton_eq. }
  assert (Hne' : url_Get (Query r') "target" <> EmptyString) by now rewrite Hget.
  pose proof (scrapeHandler_calls_once Gatherer MystromReqStatus_String device
                r' w Hne') as Hcall.
  rewrite Hsame, Hget in Hcall. rewrite Hsame.
  destruct (scrapeHandler r0 w) as [resp w'].
  cbn [fst snd] in *. split; [reflexivity | exact Hcall].
Qed.

(** X14. Every scrape request ends in exactly one of four ways: the bad
    request, when and only when the target is empty, the world then being
    untouched; the server error naming target and cause, when and only when
    the fetch for a non-empty target failed and target and status name are
    valid UTF-8; the measurements, when and only when that fetch succeeded
    and target and the name of OK are valid UTF-8; a panic with no response
    written and no request counter moved, when and only when the target is
    not empty and a label value of a counter to select is not valid UTF-8. *)
Theorem scrapeHandler_response_kinds (r : Request) (w : World) :
  match fst (scrapeHandler r w) with
  | HttpError body code =>
      (code = 400
       /\ url_Get (Query r) "target" = EmptyString
       /\ body = "'target' parameter must be specified"
       /\ snd (scrapeHandler r w) = w)
      \/ (code = 500
          /\ url_Get (Query r) "target" <> EmptyString
          /\ exists err took,
               device (url_Get (Query r) "target") (length (scrapes w))
               = (inr err, took)
               /\ WithLabelValues_ok
                    [url_Get (Query r) "target";
                     MystromReqStatus_String (error_status err)] = true
               /\ body = "failed to scrape target '"
                         +:+ url_Get (Query r) "target" +:+ "': " +:+ err)
  | Metrics gatherer =>
      url_Get (Query r) "target" <> EmptyString
      /\ (exists took,
            device (url_Get (Query r) "target") (length (scrapes w))
            = (inl gatherer, took))
      /\ WithLabelValues_ok [url_Get (Query r) "target"] = true
      /\ WithLabelValues_ok
           [url_Get (Query r) "target"; MystromReqStatus_String OK] = true
  | Panicked =>
      url_Get (Query r) "target" <> EmptyString
      /\ mystromRequestsCounterVec (snd (scrapeHandler r w))
         = mystromRequestsCounterVec w
      /\ ((exists err took,
             device (url_Get (Query r) "target") (length (scrapes w))
             = (inr err, took)
             /\ WithLabelValues_ok
                  [url_Get (Query r) "target";
                   MystromReqStatus_String (error_status err)] = false)
          \/ (exists gatherer took,
                device (url_Get (Query r) "target") (length (scrapes w))
                = (inl gatherer, took)
                /\ (WithLabelValues_ok [url_Get (Query r) "target"] = false
                    \/ WithLabelValues_ok
                         [url_Get (Query r) "target"; MystromReqStatus_String OK]
                       = false)))
  end.
Proof.
  destruct (decide (url_Get (Query r) "target" = EmptyString)) as [He|Hne].
  - rewrite (scrapeHandler_missing_target Gatherer MystromReqStatus_String device
               r w He).
    cbn [fst snd]. left. repeat split; assumption.
  - destruct (device (url_Get (Query r) "target") (length (scrapes w)))
      as [[gatherer|err] took] eqn:Hdev.
    + destruct (WithLabelValues_ok [url_Get (Query r) "target"]) eqn:Hok1.
      * destruct (WithLabelValues_ok
                    [url_Get (Query r) "target"; MystromReqStatus_String OK])
          eqn:Hok2.
        -- rewrite (scrapeHandler_fetch_ok Gatherer MystromReqStatus_String device
                      r w _ gatherer took eq_refl Hne Hdev Hok1 Hok2).
           cbn [fst]. split; [exact Hne|]. split; [now exists took|].
           split; reflexivity.
        -- rewrite (scrapeHandler_fetch_ok_panics_late Gatherer
                      MystromReqStatus_String device
                      r w _ gatherer took eq_refl Hne Hdev Hok1 Hok2).
           cbn [fst snd mystromRequestsCounterVec].
           split; [exact Hne|]. split; [reflexivity|]. right.
           exists gatherer, took. split; [reflexivity | now right].
      * rewrite (scrapeHandler_fetch_ok_panics_early Gatherer
                   MystromReqStatus_String device
                   r w _ gatherer took eq_refl Hne Hdev Hok1).
        cbn [fst snd mystromRequestsCounterVec].
        split; [exact Hne|]. split; [reflexivity|]. right.
        exists gatherer, took. split; [reflexivity | now left].
    + destruct (WithLabelValues_ok
                  [url_Get (Query r) "target";
                   MystromReqStatus_String (error_status err)]) eqn:Hok.
      * rewrite (scrapeHandler_fetch_error Gatherer MystromReqStatus_String device
                   r w _ err took eq_refl Hne Hdev Hok).
        cbn [fst]. right. split; [reflexivity|]. split; [exact Hne|].
        exists err, took. split; [reflexivity|]. split; [exact Hok | reflexivity].
      * rewrite (scrapeHandler_fetch_error_panics Gatherer MystromReqStatus_String
                   device r w _ err took eq_refl Hne Hdev Hok).
        cbn [fst snd mystromRequestsCounterVec].
        split; [exact Hne|]. split; [reflexivity|]. left.
        exists err, took. split; [reflexivity | exact Hok].
Qed.

(** X15. No scrape request ever lowers a counter or turns the clock back:
    for every tuple of label values the request counter and the duration
    counter after the request are at least what they were before, the clock
    has not gone back, and at most one target has been added to the calls
    of the Device Client. *)
Theorem scrapeHandler_counters_never_decrease (r : Request) (w : World)
    (lvs : list string) :
  (value lvs (mystromRequestsCounterVec w)
   <= value lvs (mystromRequestsCounterVec (snd (scrapeHandler r w))))%Q
  /\ (value lvs (mystromDurationCounterVec w)
      <= value lvs (mystromDurationCounterVec (snd (scrapeHandler r w))))%Q
  /\ clock w <= clock (snd (scrapeHandler r w))
  /\ (scrapes (snd (scrapeHandler r w)) = scrapes w
      \/ scrapes (snd (scrapeHandler r w))
         = url_Get (Query r) "target" :: scrapes w).
Proof.
  destruct (decide (url_Get (Query r) "target" = EmptyString)) as [He|Hne].
  - rewrite (scrapeHandler_missing_target Gatherer MystromReqStatus_String device
               r w He).
    cbn [snd]. split; [apply Qle_refl|]. split; [apply Qle_refl|].
    split; [lia | now left].
  - destruct (device (url_Get (Query r) "target") (length (scrapes w)))
      as [[gatherer|err] took] eqn:Hdev.
    + destruct (WithLabelValues_ok [url_Get (Query r) "target"]) eqn:Hok1.
      * destruct (WithLabelValues_ok
                    [url_Get (Query r) "target"; MystromReqStatus_String OK])
          eqn:Hok2.
        -- rewrite (scrapeHandler_fetch_ok Gatherer MystromReqStatus_String device
                      r w _ gatherer took eq_refl Hne Hdev Hok1 Hok2).
           cbn [snd mystromRequestsCounterVec mystromDurationCounterVec clock
                scrapes].
           split; [apply Inc_never_decreases|].
           split; [apply Add_never_decreases|].
           split; [lia | now right].
        -- rewrite (scrapeHandler_fetch_ok_panics_late Gatherer
                      MystromReqStatus_String device
                      r w _ gatherer took eq_refl Hne Hdev Hok1 Hok2).
           cbn [snd mystromRequestsCounterVec mystromDurationCounterVec clock
                scrapes].
           split; [apply Qle_refl|].
           split; [apply Add_never_decreases|].
           split; [lia | now right].
      * rewrite (scrapeHandler_fetch_ok_panics_early Gatherer
                   MystromReqStatus_String device
                   r w _ gatherer took eq_refl Hne Hdev Hok1).
        cbn [snd mystromRequestsCounterVec mystromDurationCounterVec clock
             scrapes].
        split; [apply Qle_refl|]. split; [apply Qle_refl|].
        split; [lia | now right].
    + destruct (WithLabelValues_ok
                  [url_Get (Query r) "target";
                   MystromReqStatus_String (error_status err)]) eqn:Hok.
      * rewrite (scrapeHandler_fetch_error Gatherer MystromReqStatus_String device
                   r w _ err took eq_refl Hne Hdev Hok).
        cbn [snd mystromRequestsCounterVec mystromDurationCounterVec clock
             scrapes].
        split; [apply Inc_never_decreases|].
        split; [apply Qle_refl|].
        split; [lia | now right].
      * rewrite (scrapeHandler_fetch_error_panics Gatherer MystromReqStatus_String
                   device r w _ err took eq_refl Hne Hdev Hok).
        cbn [snd mystromRequestsCounterVec mystromDurationCounterVec clock
             scrapes].
        split; [apply Qle_refl|]. split; [apply Qle_refl|].
        split; [lia | now right].
Qed.

(** X16. The status of a failed fetch is decided by occurrences in the
    error text: ErrorSocket exactly when "unable to connect with target"
    occurs somewhere in it, ErrorTimeout exactly when that does not occur
    but "i/o timeout" does, ErrorParsingValue exactly when neither occurs;
    a text holding both markers is a socket error. *)
Theorem error_status_by_occurrence (err : string) :
  (error_status err = ErrorSocket
   <-> exists pre post, err = pre +:+ "unable to connect with target" +:+ post)
  /\ (error_status err = ErrorTimeout
      <-> ~ (exists pre post,
               err = pre +:+ "unable to connect with target" +:+ post)
          /\ exists pre post, err = pre +:+ "i/o timeout" +:+ post)
  /\ (error_status err = ErrorParsingValue
      <-> ~ (exists pre post,
               err = pre +:+ "unable to connect with target" +:+ post)
          /\ ~ (exists pre post, err = pre +:+ "i/o timeout" +:+ post)).
Proof.
  set (socket := exists pre post,
                   err = pre +:+ "unable to connect with target" +:+ post).
  set (timeout := exists pre post, err = pre +:+ "i/o timeout" +:+ post).
  pose proof (Contains_occurs err "unable to connect with target") as Hs.
  pose proof (Contains_occurs err "i/o timeout") as Ht.
  fold socket in Hs. fold timeout in Ht.
  assert (Hs' : if Contains err "unable to connect with target"
                then socket else ~ socket).
  { destruct (Contains err "unable to connect with target").
    - now apply Hs.
    - intros H. apply Hs in H. discriminate. }
  assert (Ht' : if Contains err "i/o timeout" then timeout else ~ timeout).
  { destruct (Contains err "i/o timeout").
    - now apply Ht.
    - intros H. apply Ht in H. discriminate. }
  clear Hs Ht. unfold error_status.
  destruct (Contains err "unable to connect with target");
    destruct (Contains err "i/o timeout");
    (split; [|split]); split; intros H; try discriminate H; tauto.
Qed.

(** X17. Discovery and scraping compose: once a datagram of at least 7
    bytes from an origin with a non-empty IP text has been heard at an empty
    channel and taken by the updater, a request by the text of its first six
    bytes makes the Device Client fetch, once, from the IP the datagram came
    from. *)
Theorem heard_device_scraped_by_mac (datagram : list byte) (udpaddr : UDPAddr)
    (d : discover.State) (r : Request) (w : World) :
  (7 <= length datagram)%nat ->
  discover.channel d = [] ->
  IP_String ipv6_text (udp_IP udpaddr) <> EmptyString ->
  Vars r !! "macaddr" = Some (HardwareAddr_String (take 6 datagram)) ->
  exists d1 d2,
    discover.listen ipv6_text (discover.ReadOk datagram udpaddr) d
    = discover.Listening d1
    /\ discover.update d1 = Some d2
    /\ scrapes (snd (scrapeHandlerByMac r d2 w))
       = IP_String ipv6_text (udp_IP udpaddr) :: scrapes w
    /\ snd (fst (scrapeHandlerByMac r d2 w)) = d2.
Proof.
  intros Hlen Hch Hip Hvar.
  destruct (lookup_lt_is_Some_2 datagram 6 ltac:(lia)) as [b6 H6].
  set (m := {| discover.SourceIP := IP_String ipv6_text (udp_IP udpaddr);
               discover.Port := udp_Port udpaddr;
               discover.MacAddress := take 6 datagram;
               discover.DeviceType := Z.of_N (Byte.to_N b6) |}).
  set (d2 := discover.mkState (discover.LocalAddress d)
               (discover.update_body m (discover.discoverlist d)) []).
  exists (discover.mkState (discover.LocalAddress d) (discover.discoverlist d) [m]).
  exists d2.
  split.
  { unfold discover.listen.
    rewrite (listen_body_decodes ipv6_text _ _ _ H6), Hch. reflexivity. }
  split; [reflexivity|].
  assert (Hrec : discover.discoverlist d2 !! HardwareAddr_String (take 6 datagram)
                 = Some m).
  { unfold d2, discover.update_body. cbn [discover.discoverlist].
    apply lookup_insert_eq. }
  unfold main.scrapeHandlerByMac, discover.TargetByMacaddr.
  rewrite Hvar.
  change (default EmptyString (Some (HardwareAddr_String (take 6 datagram))))
    with (HardwareAddr_String (take 6 datagram)).
  rewrite Hrec. change (default discover.zeroPacket (Some m)) with m.
  change (discover.SourceIP m) with (IP_String ipv6_text (udp_IP udpaddr)).
  set (r' := {| Vars := Vars r; Query := _ |}).
  assert (Hget : url_Get (Query r') "target" = IP_String ipv6_text (udp_IP udpaddr))
    by apply url_Get_Set.
  assert (Hne : url_Get (Query r') "target" <> EmptyString) by now rewrite Hget.
  pose proof (scrapeHandler_calls_once Gatherer MystromReqStatus_String device
                r' w Hne) as Hcall.
  rewrite Hget in Hcall.
  destruct (scrapeHandler r' w) as [resp w'].
  cbn [fst snd] in *. split; [exact Hcall | reflexivity].
Qed.

(** X18. On a successful scrape of a target that is valid UTF-8 the
    duration counter of the target has the elapsed time added: its exact
    total goes up by the elapsed time in seconds, that is by the
    nanoseconds the fetch took divided by 10^9 (the float64 the library
    holds is the rounded sum), and the clock has advanced by the time the
    fetch took. *)
Theorem scrapeHandler_records_elapsed_seconds (r : Request) (w : World)
    (target : string) (gatherer : Gatherer) (took : N) :
  url_Get (Query r) "target" = target ->
  target <> EmptyString ->
  device target (length (scrapes w)) = (inl gatherer, took) ->
  utf8_ValidString target = true ->
  (value [target] (mystromDurationCounterVec (snd (scrapeHandler r w)))
   == value [target] (mystromDurationCounterVec w)
      + (Z.of_N took # 1000000000))%Q
  /\ ops [target] (mystromDurationCounterVec (snd (scrapeHandler r w)))
     = ops [target] (mystromDurationCounterVec w) ++ [OpAddSeconds (Z.of_N took)]
  /\ clock (snd (scrapeHandler r w)) = clock w + Z.of_N took.
Proof.
  intros Ht Hne Hdev Hvt.
  assert (Hok1 : WithLabelValues_ok [target] = true)
    by now rewrite WithLabelValues_ok_single.
  destruct (value_Add [target] (Z.of_N took) (mystromDurationCounterVec w))
    as (Hdur & _).
  destruct (WithLabelValues_ok [target; MystromReqStatus_String OK]) eqn:Hok2.
  - rewrite (scrapeHandler_fetch_ok Gatherer MystromReqStatus_String device
               r w target gatherer took Ht Hne Hdev Hok1 Hok2).
    cbn [snd mystromDurationCounterVec clock].
    split; [now rewrite Hdur|]. split; [apply ops_insert | reflexivity].
  - rewrite (scrapeHandler_fetch_ok_panics_late Gatherer MystromReqStatus_String
               device r w target gatherer took Ht Hne Hdev Hok1 Hok2).
    cbn [snd mystromDurationCounterVec clock].
    split; [now rewrite Hdur|]. split; [apply ops_insert | reflexivity].
Qed.

End MainMore.

(** * The further properties on the sample inputs *)

Section MoreSamples.
Import golang discover main.

#[local] Abbreviation sample_byMac :=
  (main.scrapeHandlerByMac unit sample.status_name sample.device).
#[local] Abbreviation sample_scrape :=
  (main.scrapeHandler unit sample.status_name sample.device).

Lemma listen_appends_or_waits_witness :
  (7 <= length sample.datagram)%nat
  /\ (channel_cap <= length (channel sample.full))%nat
  /\ listen sample.ipv6_text (ReadOk sample.datagram sample.origin) sample.full
     = Blocked.
Proof.
  assert (Hlen : (7 <= length sample.datagram)%nat) by (vm_compute; lia).
  assert (Hfull : (channel_cap <= length (channel sample.full))%nat)
    by (vm_compute; lia).
  split; [exact Hlen|]. split; [exact Hfull|].
  exact (proj1 (proj2 (listen_appends_or_waits sample.ipv6_text
                         (ReadOk sample.datagram sample.origin) sample.full))
               sample.datagram sample.origin eq_refl Hlen Hfull).
Defined.

Lemma channel_within_capacity_witness :
  rtc (step sample.ipv6_text) sample.started sample.one_device
  /\ (length (channel sample.one_device) <= 10)%nat.
Proof.
  split; [exact sample_reachable|].
  exact (proj1 (channel_within_capacity sample.ipv6_text sample.outbound ":9452"
                  sample.one_device sample_reachable)).
Defined.

Lemma stored_records_are_decoded_witness :
  rtc (step sample.ipv6_text) sample.started sample.one_device
  /\ discoverlist sample.one_device !! "01:02:03:04:05:06" = Some sample.packet
  /\ (length (MacAddress sample.packet) = 6%nat
      /\ 0 <= DeviceType sample.packet < 256
      /\ String.length "01:02:03:04:05:06" = 17%nat)
  /\ String.length "010203040506" <> 17%nat
  /\ TargetByMacaddr "010203040506" sample.one_device
     = (EmptyString, sample.one_device).
Proof.
  destruct (stored_records_are_decoded sample.ipv6_text sample.outbound ":9452"
              sample.one_device sample_reachable) as [Hrec Hmiss].
  assert (Hlook : discoverlist sample.one_device !! "01:02:03:04:05:06"
                  = Some sample.packet) by (vm_compute; reflexivity).
  assert (Hlen : String.length "010203040506" <> 17%nat) by (vm_compute; lia).
  split; [exact sample_reachable|]. split; [exact Hlook|].
  split; [exact (Hrec _ _ Hlook)|]. split; [exact Hlen|].
  exact (Hmiss _ Hlen).
Defined.

Lemma table_only_grows_witness :
  rtc (step sample.ipv6_text) sample.started sample.one_device
  /\ LocalAddress sample.one_device = LocalAddress sample.started
  /\ (size (discoverlist sample.started) <= size (discoverlist sample.one_device))%nat.
Proof.
  destruct (table_only_grows sample.ipv6_text sample.started sample.one_device
              sample_reachable) as (Hla & _ & Hsize).
  split; [exact sample_reachable|]. split; [exact Hla | exact Hsize].
Defined.

Lemma update_distinct_addresses_coexist_witness :
  MacAddress sample.packet <> MacAddress sample.packet2
  /\ discoverlist sample.two_devices !! "01:02:03:04:05:06" = Some sample.packet
  /\ discoverlist sample.two_devices !! "aa:bb:cc:dd:ee:ff" = Some sample.packet2.
Proof.
  assert (Hne : MacAddress sample.packet <> MacAddress sample.packet2)
    by discriminate.
  destruct (update_distinct_addresses_coexist sample.packet sample.packet2 ∅ Hne)
    as (H1 & H2 & _).
  split; [exact Hne|]. split; [exact H1 | exact H2].
Defined.

Lemma update_loop_drains_channel_witness :
  channel sample.two_waiting = [] ++ sample.packet :: [sample.packet2]
  /\ Forall (fun q => MacAddress q <> MacAddress sample.packet) [sample.packet2]
  /\ exists s',
       update_loop (length (channel sample.two_waiting)) sample.two_waiting = Some s'
       /\ discoverlist s' !! HardwareAddr_String (MacAddress sample.packet)
          = Some sample.packet
       /\ TargetByMacaddr (HardwareAddr_String (MacAddress sample.packet)) s'
          = (SourceIP sample.packet, s').
Proof.
  assert (Hch : channel sample.two_waiting = [] ++ sample.packet :: [sample.packet2])
    by reflexivity.
  assert (Hpost : Forall (fun q => MacAddress q <> MacAddress sample.packet)
                         [sample.packet2])
    by (constructor; [discriminate | constructor]).
  split; [exact Hch|]. split; [exact Hpost|].
  exact (proj2 (proj2 (update_loop_drains_channel sample.two_waiting))
               [] sample.packet [sample.packet2] Hch Hpost).
Defined.

Lemma heard_device_is_found_witness :
  (7 <= length sample.datagram)%nat
  /\ channel sample.started = []
  /\ exists s1 s2,
       listen sample.ipv6_text (ReadOk sample.datagram sample.origin) sample.started
       = Listening s1
       /\ update s1 = Some s2
       /\ channel s2 = []
       /\ TargetByMacaddr (HardwareAddr_String (take 6 sample.datagram)) s2
          = (IP_String sample.ipv6_text (udp_IP sample.origin), s2)
       /\ forall k, k <> HardwareAddr_String (take 6 sample.datagram) ->
                    discoverlist s2 !! k = discoverlist sample.started !! k.
Proof.
  assert (Hlen : (7 <= length sample.datagram)%nat) by (vm_compute; lia).
  assert (Hch : channel sample.started = []) by reflexivity.
  split; [exact Hlen|]. split; [exact Hch|].
  exact (heard_device_is_found sample.ipv6_text sample.datagram sample.origin
           sample.started Hlen Hch).
Defined.

Lemma Discover_one_entry_per_record_witness :
  range_order (discoverlist sample.two_devices)
              (map_to_list (discoverlist sample.two_devices))
  /\ length (elems (Discover_loop (LocalAddress sample.two_devices)
                      (map_to_list (discoverlist sample.two_devices))))
     = size (discoverlist sample.two_devices).
Proof.
  assert (Horder : range_order (discoverlist sample.two_devices)
                     (map_to_list (discoverlist sample.two_devices)))
    by (unfold range_order; reflexivity).
  split; [exact Horder|].
  exact (proj1 (Discover_one_entry_per_record sample.two_devices _ Horder)).
Defined.

Lemma manifest_target_is_startup_address_witness :
  rtc (step sample.ipv6_text) sample.started sample.one_device
  /\ range_order (discoverlist sample.one_device)
                 (map_to_list (discoverlist sample.one_device))
  /\ discover.Discover_entry "192.168.1.2:9452" "01:02:03:04:05:06" sample.packet
       ∈ elems (Discover_loop (LocalAddress sample.one_device)
                  (map_to_list (discoverlist sample.one_device)))
  /\ (exists rest, ":9452" = ":" +:+ rest)
  /\ Targets (discover.Discover_entry "192.168.1.2:9452" "01:02:03:04:05:06"
                sample.packet)
     = SliceOf [IP_String sample.ipv6_text sample.outbound +:+ ":9452"].
Proof.
  assert (Horder : range_order (discoverlist sample.one_device)
                     (map_to_list (discoverlist sample.one_device)))
    by (unfold range_order; reflexivity).
  assert (Hin : discover.Discover_entry "192.168.1.2:9452" "01:02:03:04:05:06"
                  sample.packet
                ∈ elems (Discover_loop (LocalAddress sample.one_device)
                           (map_to_list (discoverlist sample.one_device)))).
  { rewrite Discover_loop_elems. apply list_elem_of_fmap.
    exists ("01:02:03:04:05:06", sample.packet). split; [reflexivity|].
    apply elem_of_map_to_list. vm_compute. reflexivity. }
  assert (Hcolon : exists rest, ":9452" = ":" +:+ rest)
    by (exists "9452"; reflexivity).
  split; [exact sample_reachable|]. split; [exact Horder|].
  split; [exact Hin|]. split; [exact Hcolon|].
  exact (proj1 (manifest_target_is_startup_address sample.ipv6_text
                  sample.outbound ":9452" sample.one_device _ _
                  sample_reachable Horder Hin) Hcolon).
Defined.

Lemma Discover_null_iff_empty_table_witness :
  range_order (discoverlist sample.two_devices)
              (map_to_list (discoverlist sample.two_devices))
  /\ discoverlist sample.two_devices <> ∅
  /\ exists body,
       fst (fst (Discover sample.json_string
                   (map_to_list (discoverlist sample.two_devices))
                   sample.two_devices))
       = "[" +:+ body +:+ "]".
Proof.
  assert (Horder : range_order (discoverlist sample.two_devices)
                     (map_to_list (discoverlist sample.two_devices)))
    by (unfold range_order; reflexivity).
  assert (Hne : discoverlist sample.two_devices <> ∅).
  { intros H. apply (f_equal size) in H. vm_compute in H. discriminate H. }
  split; [exact Horder|]. split; [exact Hne|].
  exact (proj1 (proj2 (Discover_null_iff_empty_table
                         sample.json_string sample.two_devices _ Horder)) Hne).
Defined.

Lemma discoverHandler_serves_manifest_witness :
  range_order (discoverlist sample.started) []
  /\ Status (fst (discoverHandler sample.json_string [] sample.started)) = 200
  /\ Body (fst (discoverHandler sample.json_string [] sample.started)) = "null".
Proof.
  assert (Horder : range_order (discoverlist sample.started) []).
  { unfold range_order. change (discoverlist sample.started) with (∅ : gmap string Packet).
    rewrite map_to_list_empty. reflexivity. }
  destruct (discoverHandler_serves_manifest sample.json_string [] sample.started
              Horder) as (Hstatus & _ & _ & Hnull & _).
  split; [exact Horder|]. split; [exact Hstatus|].
  exact (proj2 Hnull eq_refl).
Defined.

Lemma scrapeHandlerByMac_ignores_query_witness :
  Vars sample.by_mac_plain !! "macaddr" = Vars sample.by_mac_with_target !! "macaddr"
  /\ sample_byMac sample.by_mac_plain sample.one_device sample.fresh
     = sample_byMac sample.by_mac_with_target sample.one_device sample.fresh.
Proof.
  assert (Hvar : Vars sample.by_mac_plain !! "macaddr"
                 = Vars sample.by_mac_with_target !! "macaddr") by reflexivity.
  split; [exact Hvar|].
  exact (scrapeHandlerByMac_ignores_query unit sample.status_name sample.device
           _ _ sample.one_device sample.fresh Hvar).
Defined.

Lemma scrapeHandlerByMac_known_device_witness :
  Vars sample.by_mac_with_target !! "macaddr" = Some "01:02:03:04:05:06"
  /\ discoverlist sample.one_device !! "01:02:03:04:05:06" = Some sample.packet
  /\ SourceIP sample.packet <> EmptyString
  /\ scrapes (snd (sample_byMac sample.by_mac_with_target sample.one_device
                     sample.fresh))
     = SourceIP sample.packet :: scrapes sample.fresh.
Proof.
  assert (Hvar : Vars sample.by_mac_with_target !! "macaddr"
                 = Some "01:02:03:04:05:06") by (vm_compute; reflexivity).
  assert (Hrec : discoverlist sample.one_device !! "01:02:03:04:05:06"
                 = Some sample.packet) by (vm_compute; reflexivity).
  assert (Hne : SourceIP sample.packet <> EmptyString) by discriminate.
  split; [exact Hvar|]. split; [exact Hrec|]. split; [exact Hne|].
  exact (proj2 (scrapeHandlerByMac_known_device unit sample.status_name
                  sample.device _ sample.one_device sample.fresh _ _
                  Hvar Hrec Hne)).
Defined.

Lemma heard_device_scraped_by_mac_witness :
  (7 <= length sample.datagram)%nat
  /\ channel sample.started = []
  /\ IP_String sample.ipv6_text (udp_IP sample.origin) <> EmptyString
  /\ Vars sample.by_mac_plain !! "macaddr"
     = Some (HardwareAddr_String (take 6 sample.datagram))
  /\ exists d1 d2,
       listen sample.ipv6_text (ReadOk sample.datagram sample.origin) sample.started
       = Listening d1
       /\ update d1 = Some d2
       /\ scrapes (snd (sample_byMac sample.by_mac_plain d2 sample.fresh))
          = IP_String sample.ipv6_text (udp_IP sample.origin) :: scrapes sample.fresh
       /\ snd (fst (sample_byMac sample.by_mac_plain d2 sample.fresh)) = d2.
Proof.
  assert (Hlen : (7 <= length sample.datagram)%nat) by (vm_compute; lia).
  assert (Hch : channel sample.started = []) by reflexivity.
  assert (Hip : IP_String sample.ipv6_text (udp_IP sample.origin) <> EmptyString)
    by (vm_compute; discriminate).
  assert (Hvar : Vars sample.by_mac_plain !! "macaddr"
                 = Some (HardwareAddr_String (take 6 sample.datagram)))
    by (vm_compute; reflexivity).
  split; [exact Hlen|]. split; [exact Hch|]. split; [exact Hip|].
  split; [exact Hvar|].
  exact (heard_device_scraped_by_mac unit sample.status_name sample.device
           sample.ipv6_text _ _ sample.started _ sample.fresh
           Hlen Hch Hip Hvar).
Defined.

Lemma scrapeHandler_records_elapsed_seconds_witness :
  url_Get (Query (sample.request "10.0.0.5")) "target" = "10.0.0.5"
  /\ "10.0.0.5" <> EmptyString
  /\ sample.device "10.0.0.5" (length (scrapes sample.fresh))
     = (inl tt, 250000000%N)
  /\ utf8_ValidString "10.0.0.5" = true
  /\ (value ["10.0.0.5"]
        (mystromDurationCounterVec
           (snd (sample_scrape (sample.request "10.0.0.5") sample.fresh)))
      == value ["10.0.0.5"] (mystromDurationCounterVec sample.fresh)
         + (Z.of_N 250000000 # 1000000000))%Q.
Proof.
  assert (Ht : url_Get (Query (sample.request "10.0.0.5")) "target" = "10.0.0.5")
    by (vm_compute; reflexivity).
  assert (Hne : "10.0.0.5" <> EmptyString) by discriminate.
  assert (Hdev : sample.device "10.0.0.5" (length (scrapes sample.fresh))
                 = (inl tt, 250000000%N)) by reflexivity.
  assert (Hvt : utf8_ValidString "10.0.0.5" = true) by reflexivity.
  split; [exact Ht|]. split; [exact Hne|]. split; [exact Hdev|].
  split; [exact Hvt|].
  exact (proj1 (scrapeHandler_records_elapsed_seconds unit sample.status_name
                  sample.device _ sample.fresh _ _ _ Ht Hne Hdev Hvt)).
Defined.

End MoreSamples.
